(** * TailorTalk: the Google Calendar adapter (backend/google_calendar.py)

    A shallow embedding of the five operations of [GoogleCalendar]
    (availability check, create, update time, cancel, resolve an event id by
    approximate start time) together with the part of the Python runtime they
    rely on: JSON-like values returned by the remote service, exceptions,
    naive and aware datetimes, and the calls issued to the remote calendar. *)

From stdpp Require Import base option list strings gmap.
From Stdlib Require Import Ascii ZArith QArith Qabs Lia.

Set Warnings "-register-all".
Local Open Scope Z_scope.

(** ** Python values

    What the discovery client hands back after [.execute()] is decoded JSON:
    [None], booleans, integers, strings, lists and dicts keyed by strings. *)

Inductive pyval : Type :=
| PNone
| PBool (b : bool)
| PInt (z : Z)
| PStr (s : string)
| PList (l : list pyval)
| PDict (d : gmap string pyval).

(** Python truthiness, as used by [or] and [not]. *)
Definition truthy (v : pyval) : bool :=
  match v with
  | PNone => false
  | PBool b => b
  | PInt z => negb (z =? 0)
  | PStr s => negb (String.eqb s "")
  | PList l => match l with [] => false | _ => true end
  | PDict d => negb (bool_decide (d = ∅))
  end.

(** [a or b]. *)
Definition py_or (a b : pyval) : pyval := if truthy a then a else b.

(** ** Exceptions

    The instances of Python's [Exception] class that can occur here: the
    built-in ones raised by dict and string operations, and whatever the
    remote call raises ([HttpError] with its status, transport errors). *)

Inductive exn : Type :=
| KeyError (key : string)
| TypeError
| AttributeError
| ValueError
| HttpError (status : Z)
| TransportError (msg : string).

Inductive outcome (A : Type) : Type :=
| Ok (a : A)
| Raise (e : exn).
Arguments Ok {A} a.
Arguments Raise {A} e.

#[global] Instance outcome_ret : MRet outcome := fun A a => Ok a.
#[global] Instance outcome_bind : MBind outcome := fun A B f m =>
  match m with
  | Ok a => f a
  | Raise e => Raise e
  end.

Definition is_raise {A} (o : outcome A) : bool :=
  match o with Ok _ => false | Raise _ => true end.

(** [obj.get(key, dflt)]: only dicts have [get]. *)
Definition py_get (obj : pyval) (key : string) (dflt : pyval) : outcome pyval :=
  match obj with
  | PDict d => Ok (default dflt (d !! key))
  | _ => Raise AttributeError
  end.

(** [obj[key]] with a string key. *)
Definition py_getitem (obj : pyval) (key : string) : outcome pyval :=
  match obj with
  | PDict d => match d !! key with Some v => Ok v | None => Raise (KeyError key) end
  | _ => Raise TypeError
  end.

(** [obj[key] = v] with a string key; the updated object is returned. *)
Definition py_setitem (obj : pyval) (key : string) (v : pyval) : outcome pyval :=
  match obj with
  | PDict d => Ok (PDict (<[key := v]> d))
  | _ => Raise TypeError
  end.

(** [len(obj)]. *)
Definition py_len (obj : pyval) : outcome Z :=
  match obj with
  | PList l => Ok (Z.of_nat (length l))
  | PDict d => Ok (Z.of_nat (size d))
  | PStr s => Ok (Z.of_nat (String.length s))
  | _ => Raise TypeError
  end.

Fixpoint chars (s : string) : list pyval :=
  match s with
  | EmptyString => []
  | String c s' => PStr (String c EmptyString) :: chars s'
  end.

(** What a [for] loop enumerates: the elements of a list, the keys of a dict,
    the characters of a string. *)
Definition py_iter (obj : pyval) : outcome (list pyval) :=
  match obj with
  | PList l => Ok l
  | PDict d => Ok (PStr <$> (map_to_list d).*1)
  | PStr s => Ok (chars s)
  | _ => Raise TypeError
  end.

(** [s.replace(old, new)] for a one-character [old]. *)
Fixpoint str_replace (old : Ascii.ascii) (new : string) (s : string) : string :=
  match s with
  | EmptyString => EmptyString
  | String c s' =>
      if Ascii.eqb c old then new +:+ str_replace old new s'
      else String c (str_replace old new s')
  end.

(** ** Dates and times

    A [datetime] is a wall-clock reading, counted in microseconds from
    1970-01-01T00:00:00 of that clock, and the UTC offset of its [tzinfo]
    (also in microseconds) when it has one.  A naive datetime has none.
    The year 1..9999 range of Python's type is not represented. *)

Record datetime : Type := mk_datetime {
  wall : Z;
  utcoffset : option Z
}.

#[global] Instance datetime_eq_dec : EqDecision datetime.
Proof. solve_decision. Defined.

(** A [date] is a day number (days since 1970-01-01), a [time] an hour and a
    minute, a [timedelta] a number of microseconds. *)
Definition date : Type := Z.
Record time : Type := mk_time { hour : Z; minute : Z }.
Definition timedelta : Type := Z.

Definition usec_per_second : Z := 1000000.
Definition usec_per_minute : Z := 60 * usec_per_second.
Definition usec_per_day : Z := 86400 * usec_per_second.

(** [timedelta(minutes=m)]. *)
Definition timedelta_minutes (m : Z) : timedelta := m * usec_per_minute.

(** [datetime.combine(d, t)]: a naive datetime. *)
Definition combine (d : date) (t : time) : datetime :=
  mk_datetime (d * usec_per_day + (hour t * 60 + minute t) * usec_per_minute) None.

(** [dt - td] and [dt + td]: wall-clock arithmetic, the tzinfo is kept. *)
Definition datetime_minus (dt : datetime) (td : timedelta) : datetime :=
  mk_datetime (wall dt - td) (utcoffset dt).
Definition datetime_plus (dt : datetime) (td : timedelta) : datetime :=
  mk_datetime (wall dt + td) (utcoffset dt).

(** The instant an aware datetime denotes, in microseconds of UTC. *)
Definition utc_instant (dt : datetime) : option Z :=
  o ← utcoffset dt; Some (wall dt - o).

(** [a - b] for two datetimes: a [TypeError] when one is naive and the other
    aware. *)
Definition datetime_sub (a b : datetime) : outcome timedelta :=
  match utcoffset a, utcoffset b with
  | Some oa, Some ob => Ok ((wall a - oa) - (wall b - ob))
  | None, None => Ok (wall a - wall b)
  | _, _ => Raise TypeError
  end.

(** [td.total_seconds()]: the float is taken as the exact quotient;
    [total_seconds_float] below rounds it as the interpreter does. *)
Definition total_seconds (td : timedelta) : Q := td # 1000000.

(** A time zone: the offset it assigns to a wall-clock reading (what pytz's
    [localize] picks) and the offset in force at a UTC instant. *)
Record tzinfo : Type := mk_tzinfo {
  offset_of_wall : Z → Z;
  offset_at_utc : Z → Z
}.

(** [tz.localize(dt)] for a naive [dt]: the reading is kept and taken as a
    reading of [tz]'s clock.  (pytz refuses an aware [dt]; the source only
    calls it under [if dt.tzinfo is None].) *)
Definition localize (tz : tzinfo) (dt : datetime) : datetime :=
  mk_datetime (wall dt) (Some (offset_of_wall tz (wall dt))).

(** [dt.astimezone(tz)]: the same instant on [tz]'s clock.  An aware [dt]
    gives its instant through its own offset; a naive [dt] "is presumed to
    represent time in the system time zone" (the [datetime] documentation),
    here [sys], whatever [tz] is. *)
Definition astimezone (sys tz : tzinfo) (dt : datetime) : datetime :=
  let utc := match utcoffset dt with
             | Some o => wall dt - o
             | None => wall dt - offset_of_wall sys (wall dt)
             end in
  mk_datetime (utc + offset_at_utc tz utc) (Some (offset_at_utc tz utc)).

(** ** Configuration and runtime

    [backend/config.py] reads [CALENDAR_ID] and [TIMEZONE] from the
    environment; [pytz.timezone], the process's local zone and the two ISO
    8601 functions of [datetime] come from the runtime. [fromisoformat]
    returns [None] where Python raises [ValueError]. *)

Record Env : Type := mk_env {
  CALENDAR_ID : string;
  TIMEZONE : string;
  pytz_timezone : string → tzinfo;
  system_zone : tzinfo;
  isoformat : datetime → string;
  fromisoformat : string → option datetime
}.

(** ** The remote calendar

    The requests the adapter builds with the discovery client, with the
    keyword arguments it passes. *)

Inductive request : Type :=
| FreebusyQuery (body : pyval)
| EventsInsert (calendarId : string) (body : pyval) (sendUpdates : string)
| EventsGet (calendarId eventId : string)
| EventsUpdate (calendarId eventId : string) (body : pyval) (sendUpdates : string)
| EventsDelete (calendarId eventId : string) (sendUpdates : string)
| EventsList (calendarId timeMin timeMax : string) (singleEvents : bool)
    (timeZone : string).

(** The remote service answers a request from its own state: it returns the
    decoded response or raises. *)
Record Service : Type := mk_service {
  remote_state : Type;
  respond : request → remote_state → outcome pyval * remote_state
}.

(** The adapter runs against the remote state and the sequence of requests
    executed so far. *)
Record world (srv : Service) : Type := mk_world {
  remote : remote_state srv;
  calls : list request
}.
Arguments mk_world {srv} remote calls.
Arguments remote {srv} w.
Arguments calls {srv} w.

Definition io (srv : Service) (A : Type) : Type := world srv → outcome A * world srv.

#[global] Instance io_ret srv : MRet (io srv) := fun A a w => (Ok a, w).
#[global] Instance io_bind srv : MBind (io srv) := fun A B f m w =>
  match m w with
  | (Ok a, w') => f a w'
  | (Raise e, w') => (Raise e, w')
  end.

(** A pure computation inside [io]. *)
Definition lift {srv A} (o : outcome A) : io srv A := fun w => (o, w).

(** [request.execute()]. *)
Definition execute {srv} (req : request) : io srv pyval := fun w =>
  let '(r, s') := respond srv req (remote w) in
  (r, mk_world s' (calls w ++ [req])).

(** [try: body  except Exception: handler]. *)
Definition try_except {srv A} (body : io srv A) (handler : io srv A) : io srv A :=
  fun w =>
    match body w with
    | (Ok a, w') => (Ok a, w')
    | (Raise _, w') => handler w'
    end.

(** [try: x = body  except Exception: return handler] followed by the rest of
    the function, which uses [x]. *)
Definition try_except_return {srv A R} (body : io srv A) (handler : io srv R)
    (rest : A → io srv R) : io srv R :=
  fun w =>
    match body w with
    | (Ok a, w') => rest a w'
    | (Raise _, w') => handler w'
    end.

(** A dict literal: a key written twice keeps its last value. *)
Definition py_dict (items : list (string * pyval)) : pyval :=
  PDict (foldl (λ d item, <[item.1 := item.2]> d) ∅ items).

(** [obj[k1][k2] = v]: the inner dict is mutated in place, which is seen
    through [obj]. *)
Definition py_setitem2 (obj : pyval) (k1 k2 : string) (v : pyval) : outcome pyval :=
  inner ← py_getitem obj k1;
  inner' ← py_setitem inner k2 v;
  py_setitem obj k1 inner'.

(** [datetime.fromisoformat(v)]. *)
Definition datetime_fromisoformat (env : Env) (v : pyval) : outcome datetime :=
  match v with
  | PStr s =>
      match fromisoformat env s with
      | Some dt => Ok dt
      | None => Raise ValueError
      end
  | _ => Raise TypeError
  end.

(** [v.replace("Z", "+00:00")]. *)
Definition py_replace_Z (v : pyval) : outcome pyval :=
  match v with
  | PStr s => Ok (PStr (str_replace "Z"%char "+00:00" s))
  | _ => Raise AttributeError
  end.

(** ** The adapter: class [GoogleCalendar] *)

Section GoogleCalendar.
Context (env : Env) (srv : Service).

(** [tz = pytz.timezone(TIMEZONE)] *)
Definition tz : tzinfo := pytz_timezone env (TIMEZONE env).

(** [if dt.tzinfo is None: dt = tz.localize(dt)] *)
Definition ensure_aware (dt : datetime) : datetime :=
  match utcoffset dt with
  | None => localize tz dt
  | Some _ => dt
  end.

(** The free/busy request [is_free_on_date] builds. *)
Definition freebusy_request (date_to_be_checked : date) : request :=
  let start :=
    astimezone (system_zone env) (pytz_timezone env (TIMEZONE env))
      (combine date_to_be_checked (mk_time 0 0)) in
  let end_ :=
    astimezone (system_zone env) (pytz_timezone env (TIMEZONE env))
      (combine date_to_be_checked (mk_time 23 59)) in
  let body := py_dict [
    ("timeMin", PStr (isoformat env start));
    ("timeMax", PStr (isoformat env end_));
    ("timeZone", PStr (TIMEZONE env));
    ("items", PList [py_dict [("id", PStr (CALENDAR_ID env))]])
  ] in
  FreebusyQuery body.

Definition is_free_on_date (date_to_be_checked : date) : io srv bool :=
  response ← execute (freebusy_request date_to_be_checked);
  busy_slots ← lift (
    calendars ← py_getitem response "calendars";
    calendar ← py_getitem calendars (CALENDAR_ID env);
    py_getitem calendar "busy");
  n ← lift (py_len busy_slots);
  mret (n =? 0).

(** The insert request [create_event] builds. *)
Definition insert_request (title : string) (start_time end_time : datetime)
    (description : option string) : request :=
  let start_time := ensure_aware start_time in
  let end_time := ensure_aware end_time in
  let description :=
    match description with Some s => PStr s | None => PNone end in
  let event_body := py_dict [
    ("summary", PStr title);
    ("description", py_or description (PStr ""));
    ("start", py_dict [
       ("dateTime", PStr (isoformat env start_time));
       ("timeZone", PStr (TIMEZONE env))]);
    ("end", py_dict [
       ("dateTime", PStr (isoformat env end_time));
       ("timeZone", PStr (TIMEZONE env))])
  ] in
  EventsInsert (CALENDAR_ID env) event_body "all".

Definition create_event (title : string) (start_time end_time : datetime)
    (description : option string) : io srv pyval :=
  created_event ← execute (insert_request title start_time end_time description);
  lift (py_getitem created_event "id").

(** [event["start"]["dateTime"] = new_start_time.isoformat()] and the same
    for the end. *)
Definition with_new_times (event : pyval) (new_start_time new_end_time : datetime)
    : outcome pyval :=
  event ← py_setitem2 event "start" "dateTime" (PStr (isoformat env new_start_time));
  py_setitem2 event "end" "dateTime" (PStr (isoformat env new_end_time)).

Definition update_event_time (event_id : string)
    (new_start_time new_end_time : datetime) : io srv bool :=
  let new_start_time := ensure_aware new_start_time in
  let new_end_time := ensure_aware new_end_time in
  try_except_return
    (execute (EventsGet (CALENDAR_ID env) event_id))
    (mret false)
    (λ event,
      event ← lift (with_new_times event new_start_time new_end_time);
      try_except
        (_ ← execute (EventsUpdate (CALENDAR_ID env) event_id event "all");
         mret true)
        (mret false)).

Definition cancel_event (event_id : string) : io srv bool :=
  try_except
    (_ ← execute (EventsDelete (CALENDAR_ID env) event_id "all");
     mret true)
    (mret false).

(** [event.get("start", {}).get("dateTime") or
     event.get("start", {}).get("date")] *)
Definition raw_start_of (event : pyval) : outcome pyval :=
  start ← py_get event "start" (PDict ∅);
  date_time ← py_get start "dateTime" PNone;
  if truthy date_time then Ok date_time
  else
    start ← py_get event "start" (PDict ∅);
    py_get start "date" PNone.

(** The [try]/[except ValueError] around [fromisoformat]. *)
Definition parse_raw_start (raw_start : pyval) : outcome datetime :=
  match datetime_fromisoformat env raw_start with
  | Raise ValueError =>
      replaced ← py_replace_Z raw_start;
      datetime_fromisoformat env replaced
  | r => r
  end.

(** [abs((ev_dt - start_time).total_seconds()) <= window_minutes * 60] *)
Definition within_window (ev_dt start_time : datetime) (window_minutes : Z)
    : outcome bool :=
  delta ← datetime_sub ev_dt start_time;
  Ok (Qle_bool (Qabs (total_seconds delta)) (inject_Z (window_minutes * 60))).

(** The [for event in ...] loop: [Ok PNone] is the final [return None]. *)
Fixpoint scan_events (start_time : datetime) (window_minutes : Z)
    (items : list pyval) : outcome pyval :=
  match items with
  | [] => Ok PNone
  | event :: rest =>
      raw_start ← raw_start_of event;
      if negb (truthy raw_start) then scan_events start_time window_minutes rest
      else
        ev_dt ← parse_raw_start raw_start;
        let ev_dt := ensure_aware ev_dt in
        hit ← within_window ev_dt start_time window_minutes;
        if (hit : bool) then py_getitem event "id"
        else scan_events start_time window_minutes rest
  end.

(** The listing request [get_event_id_by_start_time] builds. *)
Definition list_request (start_time : datetime) (window_minutes : Z) : request :=
  let start_time := ensure_aware start_time in
  let time_min_dt := datetime_minus start_time (timedelta_minutes window_minutes) in
  let time_max_dt := datetime_plus start_time (timedelta_minutes window_minutes) in
  EventsList (CALENDAR_ID env) (isoformat env time_min_dt)
    (isoformat env time_max_dt) true (TIMEZONE env).

Definition get_event_id_by_start_time (start_time : datetime)
    (window_minutes : Z) : io srv pyval :=
  events_result ← execute (list_request start_time window_minutes);
  items ← lift (items ← py_get events_result "items" (PList []); py_iter items);
  lift (scan_events (ensure_aware start_time) window_minutes items).

End GoogleCalendar.

(** ** A reference runtime

    Concrete instances of what [Env] and [Service] leave open, used to run the
    adapter on examples: ISO 8601 formatting and parsing on the profile the
    Calendar API exchanges ([YYYY-MM-DD], [YYYY-MM-DDTHH:MM:SS[.ffffff]] with
    an optional [+HH:MM[:SS]] offset), fixed-offset zones, and calendars kept
    in memory. *)

Module Iso8601.

(** Day number of a civil date and back (proleptic Gregorian calendar). *)
Definition days_from_civil (y m d : Z) : Z :=
  let y' := if m <=? 2 then y - 1 else y in
  let era := y' / 400 in
  let yoe := y' - era * 400 in
  let mp := if m >? 2 then m - 3 else m + 9 in
  let doy := (153 * mp + 2) / 5 + d - 1 in
  let doe := yoe * 365 + yoe / 4 - yoe / 100 + doy in
  era * 146097 + doe - 719468.

Definition civil_from_days (z : Z) : Z * Z * Z :=
  let z := z + 719468 in
  let era := z / 146097 in
  let doe := z - era * 146097 in
  let yoe := (doe - doe / 1460 + doe / 36524 - doe / 146096) / 365 in
  let doy := doe - (365 * yoe + yoe / 4 - yoe / 100) in
  let mp := (5 * doy + 2) / 153 in
  let d := doy - (153 * mp + 2) / 5 + 1 in
  let m := if mp <? 10 then mp + 3 else mp - 9 in
  let y := yoe + era * 400 in
  (if m <=? 2 then y + 1 else y, m, d).

Definition is_leap (y : Z) : bool :=
  (y mod 4 =? 0) && (negb (y mod 100 =? 0) || (y mod 400 =? 0)).

Definition days_in_month (y m : Z) : Z :=
  if m =? 2 then (if is_leap y then 29 else 28)
  else if (m =? 4) || (m =? 6) || (m =? 9) || (m =? 11) then 30
  else 31.

Definition digit (d : Z) : ascii := ascii_of_nat (48 + Z.to_nat (d mod 10)).

Definition pad2 (n : Z) : string :=
  String (digit (n / 10)) (String (digit n) EmptyString).
Definition pad4 (n : Z) : string := pad2 (n / 100) +:+ pad2 n.
Definition pad6 (n : Z) : string := pad2 (n / 10000) +:+ pad4 n.

Definition format_offset (o : Z) : string :=
  let s := Z.abs o / usec_per_second in
  (if o <? 0 then "-" else "+") +:+ pad2 (s / 3600) +:+ ":" +:+ pad2 (s / 60 mod 60)
  +:+ (if s mod 60 =? 0 then "" else ":" +:+ pad2 (s mod 60)).

Definition isoformat (dt : datetime) : string :=
  let day := wall dt / usec_per_day in
  let rest := wall dt mod usec_per_day in
  let '(y, m, d) := civil_from_days day in
  let s := rest / usec_per_second in
  let us := rest mod usec_per_second in
  pad4 y +:+ "-" +:+ pad2 m +:+ "-" +:+ pad2 d +:+ "T"
  +:+ pad2 (s / 3600) +:+ ":" +:+ pad2 (s / 60 mod 60) +:+ ":" +:+ pad2 (s mod 60)
  +:+ (if us =? 0 then "" else "." +:+ pad6 us)
  +:+ match utcoffset dt with Some o => format_offset o | None => "" end.

Definition digit_of (c : ascii) : option Z :=
  let n := Z.of_nat (nat_of_ascii c) in
  if (48 <=? n) && (n <=? 57) then Some (n - 48) else None.

Fixpoint take_digits (k : nat) (acc : Z) (l : list ascii) : option (Z * list ascii) :=
  match k with
  | O => Some (acc, l)
  | S k' =>
      match l with
      | c :: l' => d ← digit_of c; take_digits k' (acc * 10 + d) l'
      | [] => None
      end
  end.

Definition expect (c : ascii) (l : list ascii) : option (list ascii) :=
  match l with
  | c' :: l' => if Ascii.eqb c c' then Some l' else None
  | [] => None
  end.

Definition parse_date (l : list ascii) : option (Z * list ascii) :=
  '(y, l) ← take_digits 4 0 l;
  l ← expect "-" l;
  '(m, l) ← take_digits 2 0 l;
  l ← expect "-" l;
  '(d, l) ← take_digits 2 0 l;
  if (1 <=? m) && (m <=? 12) && (1 <=? d) && (d <=? days_in_month y m)
  then Some (days_from_civil y m d, l)
  else None.

(** [HH:MM[:SS[.ffffff]]], as microseconds since midnight. *)
Definition parse_clock (l : list ascii) : option (Z * list ascii) :=
  '(h, l) ← take_digits 2 0 l;
  l ← expect ":" l;
  '(mi, l) ← take_digits 2 0 l;
  '(s, l) ← match expect ":" l with
            | Some l' => take_digits 2 0 l'
            | None => Some (0, l)
            end;
  '(us, l) ← match expect "." l with
             | Some l' => take_digits 6 0 l'
             | None => Some (0, l)
             end;
  if (h <? 24) && (mi <? 60) && (s <? 60)
  then Some (((h * 60 + mi) * 60 + s) * usec_per_second + us, l)
  else None.

(** Nothing, or [+HH:MM[:SS]] / [-HH:MM[:SS]] up to the end of the string. *)
Definition parse_offset (l : list ascii) : option (option Z) :=
  match l with
  | [] => Some None
  | c :: l' =>
      sign ← (if Ascii.eqb c "+" then Some 1
              else if Ascii.eqb c "-" then Some (-1) else None);
      '(t, l'') ← parse_clock l';
      match l'' with
      | [] => Some (Some (sign * t))
      | _ => None
      end
  end.

Definition fromisoformat (s : string) : option datetime :=
  '(day, l) ← parse_date (String.list_ascii_of_string s);
  match l with
  | [] => Some (mk_datetime (day * usec_per_day) None)
  | sep :: l' =>
      if Ascii.eqb sep "T" || Ascii.eqb sep " " then
        '(t, l'') ← parse_clock l';
        o ← parse_offset l'';
        Some (mk_datetime (day * usec_per_day + t) o)
      else None
  end.

End Iso8601.

(** A zone with the same offset (in seconds) all year round. *)
Definition fixed_zone (seconds : Z) : tzinfo :=
  mk_tzinfo (λ _, seconds * usec_per_second) (λ _, seconds * usec_per_second).

(** The zones the examples name; India has kept +05:30 since 1945. *)
Definition zone_by_name (name : string) : tzinfo :=
  if String.eqb name "Asia/Kolkata" then fixed_zone 19800
  else if String.eqb name "Asia/Tokyo" then fixed_zone 32400
  else fixed_zone 0.

(** A deployment with the default [TIMEZONE] of [config.py] on a host whose
    clock is set to the same zone, and one on a host set to UTC. *)
Definition env_kolkata_host : Env :=
  mk_env "primary" "Asia/Kolkata" zone_by_name (fixed_zone 19800)
    Iso8601.isoformat Iso8601.fromisoformat.

Definition env_utc_host : Env :=
  mk_env "primary" "Asia/Kolkata" zone_by_name (fixed_zone 0)
    Iso8601.isoformat Iso8601.fromisoformat.

(** [datetime(y, mo, d, h, mi)] with an optional offset in minutes. *)
Definition at_ (y mo d h mi : Z) (offset_minutes : option Z) : datetime :=
  mk_datetime
    (Iso8601.days_from_civil y mo d * usec_per_day + (h * 60 + mi) * usec_per_minute)
    ((λ m, m * usec_per_minute) <$> offset_minutes).

(** A calendar kept in memory: events are stored as submitted, with the id the
    calendar assigns; a listing enumerates, in order of insertion, the events
    that end after [timeMin] and start before [timeMax]. *)
Module MemCalendar.

Record state : Type := mk_state {
  next_id : Z;
  stored : list pyval
}.

Definition field (obj : pyval) (key : string) : option pyval :=
  match obj with
  | PDict d => d !! key
  | _ => None
  end.

Definition str_field (obj : pyval) (key : string) : option string :=
  match field obj key with
  | Some (PStr s) => Some s
  | _ => None
  end.

Definition has_id (event_id : string) (event : pyval) : bool :=
  bool_decide (str_field event "id" = Some event_id).

Definition instant_of_string (s : string) : option Z :=
  dt ← Iso8601.fromisoformat s; utc_instant dt.

Definition instant_of (event : pyval) (key : string) : option Z :=
  t ← field event key;
  s ← str_field t "dateTime";
  instant_of_string s.

Definition overlaps (time_min time_max : string) (event : pyval) : bool :=
  match instant_of_string time_min, instant_of_string time_max,
        instant_of event "start", instant_of event "end" with
  | Some lo, Some hi, Some s, Some e => (lo <? e) && (s <? hi)
  | _, _, _, _ => false
  end.

Definition busy_slot (event : pyval) : pyval :=
  py_dict [
    ("start", default PNone (t ← field event "start"; field t "dateTime"));
    ("end", default PNone (t ← field event "end"; field t "dateTime"))
  ].

Definition freebusy (body : pyval) (st : state) : outcome pyval :=
  match str_field body "timeMin", str_field body "timeMax", field body "items" with
  | Some time_min, Some time_max, Some (PList items) =>
      let busy := PList (busy_slot <$> List.filter (overlaps time_min time_max) (stored st)) in
      let calendars :=
        foldr (λ item acc,
                 match str_field item "id" with
                 | Some cal => <[cal := py_dict [("busy", busy)]]> acc
                 | None => acc
                 end) ∅ items in
      Ok (py_dict [("kind", PStr "calendar#freeBusy"); ("calendars", PDict calendars)])
  | _, _, _ => Raise (HttpError 400)
  end.

Definition respond (req : request) (st : state) : outcome pyval * state :=
  match req with
  | FreebusyQuery body => (freebusy body st, st)
  | EventsInsert _ body _ =>
      match body with
      | PDict d =>
          let event := PDict (<["id" := PStr ("evt" +:+ Iso8601.pad4 (next_id st))]> d) in
          (Ok event, mk_state (next_id st + 1) (stored st ++ [event]))
      | _ => (Raise (HttpError 400), st)
      end
  | EventsGet _ event_id =>
      match List.find (has_id event_id) (stored st) with
      | Some event => (Ok event, st)
      | None => (Raise (HttpError 404), st)
      end
  | EventsUpdate _ event_id body _ =>
      if existsb (has_id event_id) (stored st)
      then (Ok body,
            mk_state (next_id st)
              ((λ event, if has_id event_id event then body else event) <$> stored st))
      else (Raise (HttpError 404), st)
  | EventsDelete _ event_id _ =>
      if existsb (has_id event_id) (stored st)
      then (Ok (PStr ""),
            mk_state (next_id st)
              (List.filter (λ event, negb (has_id event_id event)) (stored st)))
      else (Raise (HttpError 404), st)
  | EventsList _ time_min time_max _ _ =>
      (Ok (py_dict [
             ("kind", PStr "calendar#events");
             ("items", PList (List.filter (overlaps time_min time_max) (stored st)))]),
       st)
  end.

Definition service : Service := mk_service state respond.

Definition empty : world service := @mk_world service (mk_state 1 []) [].

(** The start or end object of a stored event. *)
Definition time_object (date_time : string) : gmap string pyval :=
  <["timeZone" := PStr "Asia/Kolkata"]> (<["dateTime" := PStr date_time]> ∅).

(** A stored event with an id, a title and a start and end. *)
Definition event (event_id title : string) (start_time end_time : datetime) : pyval :=
  py_dict [
    ("id", PStr event_id);
    ("summary", PStr title);
    ("start", PDict (time_object (Iso8601.isoformat start_time)));
    ("end", PDict (time_object (Iso8601.isoformat end_time)))
  ].

Definition holding (events : list pyval) : world service :=
  @mk_world service (mk_state 1 events) [].

End MemCalendar.

(** A calendar that cannot be reached: every request raises. *)
Definition unreachable : Service :=
  mk_service unit (λ _ st, (Raise (TransportError "connection refused"), st)).

(** A calendar shared read-only with the service account: reads are served
    from memory, writes are refused with 403. *)
Definition read_only : Service :=
  mk_service MemCalendar.state (λ req st,
    match req with
    | EventsInsert _ _ _ | EventsUpdate _ _ _ _ | EventsDelete _ _ _ =>
        (Raise (HttpError 403), st)
    | _ => MemCalendar.respond req st
    end).

(** A remote that answers every request with a fixed response. *)
Definition answering (response : pyval) : Service :=
  mk_service unit (λ _ st, (Ok response, st)).

(** ** The vocabulary of the specification

    The resolve-by-time algorithm in the specification's words: the start an
    event yields, the window around the target, the candidates of a listing. *)

Section ResolveSpec.
Context (env : Env).

(** The instant a datetime denotes, in microseconds of UTC, a naive one
    being read in the default zone. *)
Definition instant (dt : datetime) : Z :=
  wall dt - match utcoffset dt with
            | Some o => o
            | None => offset_of_wall (tz env) (wall dt)
            end.

(** A field that is missing, or holds a value Python takes as false. *)
Definition no_value (field : option pyval) : Prop :=
  truthy (default PNone field) = false.

(** The start object of an event; an event without one has an empty one. *)
Definition start_object (event : pyval) (start : gmap string pyval) : Prop :=
  ∃ d, event = PDict d ∧
       (d !! "start" = Some (PDict start) ∨ (d !! "start" = None ∧ start = ∅)).

(** The text parses as it is, or once every [Z] in it (the UTC designator)
    is written as [+00:00]. *)
Definition parses (raw : string) (dt : datetime) : Prop :=
  fromisoformat env raw = Some dt ∨
  (fromisoformat env raw = None ∧
   fromisoformat env (str_replace "Z" "+00:00" raw) = Some dt).

(** The start extracted from an event: the date-time field is preferred,
    the all-day date field is the fallback, a naive reading is qualified
    with the default zone; an event with neither field has no start. *)
Inductive extracted_start (event : pyval) : option datetime → Prop :=
| start_date_time start raw dt :
    start_object event start →
    start !! "dateTime" = Some (PStr raw) → raw ≠ "" →
    parses raw dt →
    extracted_start event (Some (ensure_aware env dt))
| start_all_day start raw dt :
    start_object event start →
    no_value (start !! "dateTime") →
    start !! "date" = Some (PStr raw) → raw ≠ "" →
    parses raw dt →
    extracted_start event (Some (ensure_aware env dt))
| start_missing start :
    start_object event start →
    no_value (start !! "dateTime") →
    no_value (start !! "date") →
    extracted_start event None.

(** [dt] differs from the target by at most [window_minutes * 60] seconds. *)
Definition within (target : datetime) (window_minutes : Z) (dt : datetime) : Prop :=
  Z.abs (instant dt - instant target) ≤ window_minutes * 60 * usec_per_second.

(** An event the scan accepts, and one it passes over. *)
Definition candidate (target : datetime) (window_minutes : Z) (event : pyval) : Prop :=
  ∃ dt, extracted_start event (Some dt) ∧ within target window_minutes dt.

Definition passed_over (target : datetime) (window_minutes : Z) (event : pyval) : Prop :=
  ∃ start, extracted_start event start ∧
           ∀ dt, start = Some dt → ¬ within target window_minutes dt.

(** The id an event carries. *)
Definition event_id (event : pyval) (id : pyval) : Prop :=
  ∃ d, event = PDict d ∧ d !! "id" = Some id.

(** The events a listing response enumerates: its [items], none when the
    key is missing. *)
Definition listed (response : pyval) (items : list pyval) : Prop :=
  ∃ d, response = PDict d ∧ default (PList []) (d !! "items") = PList items.

End ResolveSpec.

(** ** Scenarios

    Calendars and requests the statements below are run on.  The target is
    10:00 on 1 July 2025, given without a zone. *)

Definition july_1 : date := Iso8601.days_from_civil 2025 7 1.

Definition target : datetime := at_ 2025 7 1 10 0 None.

(** Two events within an hour of the target; the second is the nearer. *)
Definition design_review : pyval :=
  MemCalendar.event "first" "Design review"
    (at_ 2025 7 1 9 10 (Some 330)) (at_ 2025 7 1 9 40 (Some 330)).

Definition standup : pyval :=
  MemCalendar.event "second" "Standup"
    (at_ 2025 7 1 10 5 (Some 330)) (at_ 2025 7 1 10 20 (Some 330)).

Definition two_candidates : world MemCalendar.service :=
  MemCalendar.holding [design_review; standup].



(** An event whose start object carries a zone but no time. *)
Definition draft : pyval :=
  py_dict [
    ("id", PStr "draft");
    ("summary", PStr "Draft");
    ("start", py_dict [("timeZone", PStr "Asia/Kolkata")])
  ].

(** An event five minutes before the target. *)
Definition early_call : pyval :=
  MemCalendar.event "early" "Call"
    (at_ 2025 7 1 9 55 (Some 330)) (at_ 2025 7 1 10 25 (Some 330)).

Definition one_earlier : world MemCalendar.service :=
  MemCalendar.holding [early_call].

(** An event from 02:00 to 03:00 on 1 July, Indian time. *)
Definition night_shift : pyval :=
  MemCalendar.event "night" "Night shift"
    (at_ 2025 7 1 2 0 (Some 330)) (at_ 2025 7 1 3 0 (Some 330)).

Definition one_at_night : world MemCalendar.service :=
  MemCalendar.holding [night_shift].

(** The event the in-memory calendar stores when a half-hour stand-up is
    booked at the target on an empty calendar. *)
Definition booked_standup : pyval :=
  py_dict [
    ("id", PStr "evt0001");
    ("summary", PStr "Standup");
    ("description", PStr "");
    ("start", PDict (MemCalendar.time_object "2025-07-01T10:00:00+05:30"));
    ("end", PDict (MemCalendar.time_object "2025-07-01T10:30:00+05:30"))
  ].

(** The free/busy query for a day running from [time_min] to [time_max]. *)
Definition freebusy_query_between (time_min time_max : string) : request :=
  FreebusyQuery (py_dict [
    ("timeMin", PStr time_min);
    ("timeMax", PStr time_max);
    ("timeZone", PStr "Asia/Kolkata");
    ("items", PList [py_dict [("id", PStr "primary")]])
  ]).

Definition out_of_reach : world unreachable := @mk_world unreachable () [].

Definition shared_read_only : world read_only :=
  @mk_world read_only (MemCalendar.mk_state 1 [early_call]) [].

(** A free/busy response that reports no busy interval for the calendar
    [calendar]. *)
Definition nothing_busy : gmap string pyval := <["busy" := PList []]> ∅.

Definition calendars_of (calendar : string) : gmap string pyval :=
  <[calendar := PDict nothing_busy]> ∅.

Definition free_response (calendar : string) : gmap string pyval :=
  <["calendars" := PDict (calendars_of calendar)]>
    (<["kind" := PStr "calendar#freeBusy"]> ∅).

(** An event whose date-time is not ISO 8601, though its date is. *)
Definition scribbled : pyval :=
  py_dict [
    ("id", PStr "scribbled");
    ("start", py_dict [("dateTime", PStr "tomorrow at ten");
                       ("date", PStr "2025-07-01")])
  ].

(** An event with an id and nothing else. *)
Definition stub : pyval := py_dict [("id", PStr "stub")].

Definition before (service : Service) (s : remote_state service) : world service :=
  @mk_world service s [].

(** ** Configuration: [backend/config.py]

    The module reads its settings from the environment when it is imported
    and asserts that the three required ones are set.  [environ] is
    [os.environ] once [load_dotenv()] has run. *)

Module Config.

Record settings : Type := mk_settings {
  OPENAI_API_KEY : string;
  GOOGLE_CREDS_JSON : string;
  CALENDAR_ID : string;
  TIMEZONE : string;
  OPENAI_MODEL : string;
  SCOPES : list string
}.

(** [assert value, message]: [None] and the empty string are false.  The
    left injection is the [AssertionError] with its message. *)
Definition assert_set (value : option string) (message : string) : string + string :=
  match value with
  | Some v => if String.eqb v "" then inl message else inr v
  | None => inl message
  end.

(** Importing the module: the settings, or the first assertion that fails. *)
Definition load (environ : gmap string string) : string + settings :=
  let openai_api_key := environ !! "OPENAI_API_KEY" in
  let google_creds_json := environ !! "GOOGLE_CREDS_JSON" in
  let calendar_id := environ !! "CALENDAR_ID" in
  let timezone := default "Asia/Kolkata" (environ !! "TIMEZONE") in
  let openai_model := default "gpt-4o-mini" (environ !! "OPENAI_MODEL") in
  let scopes := ["https://www.googleapis.com/auth/calendar"] in
  match assert_set openai_api_key "OPENAI_API_KEY must be set in .env" with
  | inl failure => inl failure
  | inr key =>
      match assert_set google_creds_json "GOOGLE_CREDS_JSON must be set in .env" with
      | inl failure => inl failure
      | inr creds =>
          match assert_set calendar_id "CALENDAR_ID must be set in .env" with
          | inl failure => inl failure
          | inr calendar =>
              inr (mk_settings key creds calendar timezone openai_model scopes)
          end
      end
  end.

(** The variables the module insists on, in the order it asserts them. *)
Definition required : list string :=
  ["OPENAI_API_KEY"; "GOOGLE_CREDS_JSON"; "CALENDAR_ID"].

(** A variable that is set to something. *)
Definition is_set (environ : gmap string string) (name : string) : Prop :=
  ∃ v, environ !! name = Some v ∧ v ≠ "".

End Config.

(** ** The chat endpoint and the Streamlit page

    [backend/main.py] wraps the agent's reply, [frontend/app.py] posts the
    prompt and shows what comes back. *)

(** [chat(req)]: [agent_run] is [booking_agent.agent.run]. *)
Definition chat (agent_run : string → outcome string) (message : string)
    : outcome pyval :=
  resp ← agent_run message;
  Ok (py_dict [("response", PStr resp)]).

Module Frontend.

(** An entry of [st.session_state["messages"]]. *)
Record message : Type := mk_message {
  role : string;
  content : pyval
}.

(** What [httpx.post] returns, by what the page asks of it: [resp.text],
    what [resp.raise_for_status()] raises if it raises, and what
    [resp.json()] gives. *)
Record response : Type := mk_response {
  text : string;
  raise_for_status : option exn;
  json : outcome pyval
}.

(** The transport and the two renderings an f-string and [str] rely on. *)
Record Runtime : Type := mk_runtime {
  post : string → pyval → outcome response;
  str : pyval → string;
  str_exn : exn → string
}.

Definition newline : string := String (ascii_of_nat 10) EmptyString.

(** [API_URL]: the secret if the secrets can be read and have the key, else
    the environment variable, else the local address.  [secrets] is [None]
    when reading [st.secrets] raises. *)
Definition api_url (secrets : option (gmap string string))
    (environ : gmap string string) : string :=
  match secrets ≫= (λ entries : gmap string string, entries !! "API_URL") with
  | Some url => url
  | None => default "http://localhost:8000/chat" (environ !! "API_URL")
  end.

(** How a run of the script ends: it reaches its last line, or a [NameError]
    leaves it. *)
Inductive ending : Type :=
| Finished
| NameError (name : string).

Record run_result : Type := mk_run_result {
  ended : ending;
  messages : list message;
  written : list message;
  posted : list (string * pyval)
}.

(** [f"Backend error: {e}\n\nRaw response: {text}"] *)
Definition backend_error (rt : Runtime) (e : exn) (raw : string) : pyval :=
  PStr ("Backend error: " +:+ str_exn rt e +:+ newline +:+ newline
        +:+ "Raw response: " +:+ raw).

(** The body of the [try], once [resp] is bound. *)
Definition answer_of (rt : Runtime) (resp : response) : outcome pyval :=
  match raise_for_status resp with
  | Some e => Raise e
  | None =>
      data ← json resp;
      py_get data "response" (PStr (str rt data))
  end.

(** One run of the script, in a fresh namespace as Streamlit gives it:
    [session] is [st.session_state.get("messages")] on entry, [prompt] what
    [st.chat_input] returns. *)
Definition run (rt : Runtime) (url : string) (session : option (list message))
    (prompt : option string) : run_result :=
  let history := default [] session in
  match prompt with
  | None => mk_run_result Finished history history []
  | Some prompt =>
      if String.eqb prompt "" then mk_run_result Finished history history []
      else
        let user := mk_message "user" (PStr prompt) in
        let body := py_dict [("message", PStr prompt)] in
        match post rt url body with
        | Raise e =>
            (* the handler reads [resp], which was never bound *)
            mk_run_result (NameError "resp") (history ++ [user])
              (history ++ [user]) [(url, body)]
        | Ok resp =>
            let ans :=
              match answer_of rt resp with
              | Ok ans => ans
              | Raise e => backend_error rt e (text resp)
              end in
            let assistant := mk_message "assistant" ans in
            mk_run_result Finished (history ++ [user; assistant])
              (history ++ [user; assistant]) [(url, body)]
        end
  end.

(** A runtime for examples: every post is answered by [answer]; text is
    rendered as it is, anything else by a mark. *)
Definition answered_by (answer : outcome response) : Runtime :=
  mk_runtime (λ _ _, answer)
    (λ v, match v with PStr s => s | _ => "<value>" end)
    (λ e, match e with
          | TransportError msg => msg
          | KeyError key => key
          | _ => "error"
          end).

(** The response that carries what [chat] returned. *)
Definition delivering (body : pyval) : response :=
  mk_response "" None (Ok body).

End Frontend.

(** A complete environment, and one that lacks the calendar id. *)
Definition full_environ : gmap string string :=
  <["TIMEZONE" := ""]>
    (<["CALENDAR_ID" := "primary"]>
       (<["GOOGLE_CREDS_JSON" := "creds.json"]>
          (<["OPENAI_API_KEY" := "sk-test"]> ∅))).

Definition environ_without_calendar : gmap string string :=
  <["GOOGLE_CREDS_JSON" := "creds.json"]> (<["OPENAI_API_KEY" := "sk-test"]> ∅).

(** Two earlier turns of a conversation. *)
Definition earlier_turns : list Frontend.message :=
  [Frontend.mk_message "user" (PStr "Am I free on Friday?");
   Frontend.mk_message "assistant" (PStr "Yes, Friday is free.")].

(** ** The float of [total_seconds]

    [td.total_seconds()] is the integer division [microseconds / 10**6]
    rounded to the nearest binary64 number, ties to even, and the comparison
    with [window_minutes * 60] is exact.  [total_seconds] above takes the
    quotient itself; the definitions below round it, so that the two can be
    compared.  (The numbers met here are far from the subnormal and the
    overflow range of the format.) *)

(** The integer nearest to [a / b], ties to even, for [0 < b]. *)
Definition round_half_even (a b : Z) : Z :=
  let q := a / b in
  let r := a mod b in
  if 2 * r <? b then q
  else if b <? 2 * r then q + 1
  else if Z.even q then q else q + 1.

(** [n / d] over [2 ^ e], as a fraction of integers. *)
Definition scaled_num (n e : Z) : Z := n * 2 ^ Z.max 0 (- e).
Definition scaled_den (d e : Z) : Z := d * 2 ^ Z.max 0 e.

(** The exponent [e] with [2^52 <= (n / d) / 2^e < 2^53], for [0 < n, d]. *)
Definition binade (n d : Z) : Z :=
  let e := Z.log2 n - Z.log2 d - 52 in
  if scaled_num n e <? scaled_den d e * 2 ^ 52 then e - 1 else e.

(** [n / d] for two integers [0 <= n], [0 < d]: the nearest binary64. *)
Definition true_divide (n d : Z) : Q :=
  if n =? 0 then 0%Q
  else
    let e := binade n d in
    let m := round_half_even (scaled_num n e) (scaled_den d e) in
    Qmake (m * 2 ^ Z.max 0 e) (Z.to_pos (2 ^ Z.max 0 (- e))).

(** [td.total_seconds()], as the float it is. *)
Definition total_seconds_float (td : timedelta) : Q :=
  if td <? 0 then Qopp (true_divide (- td) 1000000) else true_divide td 1000000.

(** [abs((ev_dt - start_time).total_seconds()) <= window_minutes * 60] on
    that float. *)
Definition within_window_float (ev_dt start_time : datetime) (window_minutes : Z)
    : outcome bool :=
  delta ← datetime_sub ev_dt start_time;
  Ok (Qle_bool (Qabs (total_seconds_float delta)) (inject_Z (window_minutes * 60))).

(** The loop and the operation with the check on that float: [scan_events]
    and [get_event_id_by_start_time] line by line, [within_window_float] in
    the place of [within_window]. *)
Fixpoint scan_events_float (env : Env) (start_time : datetime) (window_minutes : Z)
    (items : list pyval) : outcome pyval :=
  match items with
  | [] => Ok PNone
  | event :: rest =>
      raw_start ← raw_start_of event;
      if negb (truthy raw_start) then scan_events_float env start_time window_minutes rest
      else
        ev_dt ← parse_raw_start env raw_start;
        let ev_dt := ensure_aware env ev_dt in
        hit ← within_window_float ev_dt start_time window_minutes;
        if (hit : bool) then py_getitem event "id"
        else scan_events_float env start_time window_minutes rest
  end.

Definition get_event_id_by_start_time_float (env : Env) (srv : Service)
    (start_time : datetime) (window_minutes : Z) : io srv pyval :=
  events_result ← execute (list_request env start_time window_minutes);
  items ← lift (items ← py_get events_result "items" (PList []); py_iter items);
  lift (scan_events_float env (ensure_aware env start_time) window_minutes items).

(** An event whose start text is there and does not parse, with [Z]
    rewritten or not: in the date-time field, or in the date field when the
    date-time field has no value. *)
Definition unparseable_start (env : Env) (event : pyval) : Prop :=
  ∃ (start : gmap string pyval) (raw : string),
    start_object event start
    ∧ (start !! "dateTime" = Some (PStr raw)
       ∨ (no_value (start !! "dateTime") ∧ start !! "date" = Some (PStr raw)))
    ∧ raw ≠ ""
    ∧ fromisoformat env raw = None
    ∧ fromisoformat env (str_replace "Z" "+00:00" raw) = None.




(** An event that starts 300 000 000 minutes and one microsecond after the
    target. *)
Definition far_off : pyval :=
  py_dict [
    ("id", PStr "far");
    ("start", PDict (MemCalendar.time_object "2595-11-23T18:00:00.000001+05:30"))
  ].

(** ** Running the adapter *)

Section Running.
Context (env : Env) (srv : Service).

Lemma execute_run (req : request) (w : world srv) r st' :
  respond srv req (remote w) = (r, st') →
  execute req w = (r, mk_world st' (calls w ++ [req])).
Proof. intros H. unfold execute. by rewrite H. Qed.


Lemma instant_ensure_aware (dt : datetime) :
  instant env (ensure_aware env dt) = instant env dt.
Proof. unfold ensure_aware, instant. by destruct dt as [wl [o|]]. Qed.

Lemma ensure_aware_naive (dt : datetime) :
  utcoffset dt = None → ensure_aware env dt = localize (tz env) dt.
Proof. unfold ensure_aware. by intros ->. Qed.

Lemma ensure_aware_aware (dt : datetime) o :
  utcoffset dt = Some o → ensure_aware env dt = dt.
Proof. unfold ensure_aware. by intros ->. Qed.

Lemma ensure_aware_is_aware (dt : datetime) :
  is_Some (utcoffset (ensure_aware env dt)).
Proof. unfold ensure_aware. destruct dt as [wl [o|]]; simpl; eauto. Qed.

(** The float comparison of the source, in whole microseconds. *)
Lemma total_seconds_le (delta window_minutes : Z) :
  Qle_bool (Qabs (total_seconds delta)) (inject_Z (window_minutes * 60))
  = bool_decide (Z.abs delta ≤ window_minutes * 60 * usec_per_second).
Proof.
  unfold total_seconds, Qle_bool, Qabs, inject_Z, usec_per_second. simpl.
  destruct (bool_decide_reflect (Z.abs delta ≤ window_minutes * 60 * 1000000)) as [H|H].
  - apply Z.leb_le. lia.
  - apply Z.leb_gt. lia.
Qed.

Lemma within_window_run (ev_dt start_time : datetime) (window_minutes : Z) :
  within_window (ensure_aware env ev_dt) (ensure_aware env start_time) window_minutes
  = Ok (bool_decide (Z.abs (instant env ev_dt - instant env start_time)
                     ≤ window_minutes * 60 * usec_per_second)).
Proof.
  unfold within_window, datetime_sub, ensure_aware, instant.
  destruct ev_dt as [wa [oa|]], start_time as [wb [ob|]];
    cbn [utcoffset wall localize mbind outcome_bind];
    by rewrite total_seconds_le.
Qed.

Lemma truthy_str (raw : string) : raw ≠ "" → truthy (PStr raw) = true.
Proof.
  intros Hraw. unfold truthy. destruct (String.eqb raw "") eqn:E; [|done].
  by apply String.eqb_eq in E.
Qed.

Lemma raw_start_date_time (event : pyval) start raw :
  start_object event start →
  start !! "dateTime" = Some (PStr raw) → raw ≠ "" →
  raw_start_of event = Ok (PStr raw).
Proof.
  intros (d & -> & Hs) Hdt Hraw. unfold raw_start_of.
  pose proof (truthy_str _ Hraw) as Ht.
  destruct Hs as [Hs | [Hs ->]];
    cbn [py_get mbind outcome_bind]; rewrite Hs;
    cbn [default from_option id py_get mbind outcome_bind].
  - by rewrite Hdt; cbn [default from_option id mbind outcome_bind]; rewrite Ht.
  - by rewrite lookup_empty in Hdt.
Qed.

Lemma raw_start_all_day (event : pyval) start raw :
  start_object event start →
  no_value (start !! "dateTime") →
  start !! "date" = Some (PStr raw) →
  raw_start_of event = Ok (PStr raw).
Proof.
  intros (d & -> & Hs) Hdt Hdate. unfold raw_start_of, no_value in *.
  destruct Hs as [Hs | [Hs ->]];
    cbn [py_get mbind outcome_bind]; rewrite Hs;
    cbn [default from_option id py_get mbind outcome_bind].
  - by rewrite Hdt, Hdate.
  - by rewrite lookup_empty in Hdate.
Qed.

Lemma raw_start_missing (event : pyval) start :
  start_object event start →
  no_value (start !! "dateTime") →
  no_value (start !! "date") →
  ∃ raw, raw_start_of event = Ok raw ∧ truthy raw = false.
Proof.
  intros (d & -> & Hs) Hdt Hdate. unfold raw_start_of, no_value in *.
  destruct Hs as [Hs | [Hs ->]];
    cbn [py_get mbind outcome_bind]; rewrite Hs;
    cbn [default from_option id py_get mbind outcome_bind].
  - rewrite Hdt. eauto.
  - rewrite !lookup_empty; simpl. eauto.
Qed.

Lemma parse_raw_start_run (raw : string) (dt : datetime) :
  parses env raw dt → parse_raw_start env (PStr raw) = Ok dt.
Proof.
  unfold parse_raw_start, datetime_fromisoformat, py_replace_Z.
  intros [H | [H1 H2]].
  - by rewrite H.
  - rewrite H1. cbn [mbind outcome_bind]. by rewrite H2.
Qed.

(** One turn of the loop, by what the event yields as its start. *)
Lemma scan_events_step (target : datetime) (window_minutes : Z)
    (event : pyval) (rest : list pyval) (start : option datetime) :
  extracted_start env event start →
  scan_events env (ensure_aware env target) window_minutes (event :: rest)
  = match start with
    | None => scan_events env (ensure_aware env target) window_minutes rest
    | Some dt =>
        if bool_decide (Z.abs (instant env dt - instant env target)
                        ≤ window_minutes * 60 * usec_per_second)
        then py_getitem event "id"
        else scan_events env (ensure_aware env target) window_minutes rest
    end.
Proof.
  pose proof truthy_str as Ht.
  intros H. cbn [scan_events].
  destruct H as [start raw dt Hs Hdt Hraw Hp | start raw dt Hs Hdt Hdate Hraw Hp
                | start Hs Hdt Hdate].
  - rewrite (raw_start_date_time _ _ _ Hs Hdt Hraw). cbn [mbind outcome_bind].
    rewrite (Ht _ Hraw). cbn [negb].
    rewrite (parse_raw_start_run _ _ Hp). cbn [mbind outcome_bind].
    rewrite within_window_run, instant_ensure_aware. done.
  - rewrite (raw_start_all_day _ _ _ Hs Hdt Hdate). cbn [mbind outcome_bind].
    rewrite (Ht _ Hraw). cbn [negb].
    rewrite (parse_raw_start_run _ _ Hp). cbn [mbind outcome_bind].
    rewrite within_window_run, instant_ensure_aware. done.
  - destruct (raw_start_missing _ _ Hs Hdt Hdate) as (raw & -> & Hf).
    cbn [mbind outcome_bind]. by rewrite Hf.
Qed.

Lemma scan_events_passed_over (target : datetime) (window_minutes : Z)
    (pre rest : list pyval) :
  Forall (passed_over env target window_minutes) pre →
  scan_events env (ensure_aware env target) window_minutes (pre ++ rest)
  = scan_events env (ensure_aware env target) window_minutes rest.
Proof.
  induction 1 as [| event pre (start & Hstart & Hout) _ IH]; [done|].
  rewrite <- app_comm_cons, (scan_events_step _ _ _ _ _ Hstart).
  destruct start as [dt|]; [|done].
  rewrite bool_decide_eq_false_2; [done|]. by apply Hout.
Qed.

Lemma scan_events_first_match (target : datetime) (window_minutes : Z)
    (pre post : list pyval) (event : pyval) :
  Forall (passed_over env target window_minutes) pre →
  candidate env target window_minutes event →
  scan_events env (ensure_aware env target) window_minutes (pre ++ event :: post)
  = py_getitem event "id".
Proof.
  intros Hpre (dt & Hstart & Hin).
  rewrite (scan_events_passed_over _ _ _ _ Hpre), (scan_events_step _ _ _ _ _ Hstart).
  by rewrite bool_decide_eq_true_2.
Qed.

Lemma scan_events_none (target : datetime) (window_minutes : Z) (items : list pyval) :
  Forall (passed_over env target window_minutes) items →
  scan_events env (ensure_aware env target) window_minutes items = Ok PNone.
Proof.
  intros H. rewrite <- (app_nil_r items). by rewrite scan_events_passed_over.
Qed.

Lemma py_getitem_event_id (event id : pyval) :
  event_id event id → py_getitem event "id" = Ok id.
Proof. intros (d & -> & H). simpl. by rewrite H. Qed.

(** The whole operation, once the listing has answered. *)
Lemma get_event_id_by_start_time_run (start_time : datetime) (window_minutes : Z)
    (w : world srv) (response : pyval) st' (items : list pyval) :
  respond srv (list_request env start_time window_minutes) (remote w)
    = (Ok response, st') →
  listed response items →
  get_event_id_by_start_time env srv start_time window_minutes w
  = (scan_events env (ensure_aware env start_time) window_minutes items,
     mk_world st' (calls w ++ [list_request env start_time window_minutes])).
Proof.
  intros Hr (d & -> & Hitems). unfold get_event_id_by_start_time.
  unfold mbind at 1 2, io_bind. rewrite (execute_run _ _ _ _ Hr).
  unfold lift. cbn [py_get mbind outcome_bind]. by rewrite Hitems.
Qed.

Lemma update_event_time_fetch_failed (event_id : string)
    (new_start_time new_end_time : datetime) (w : world srv) e st' :
  respond srv (EventsGet (CALENDAR_ID env) event_id) (remote w) = (Raise e, st') →
  update_event_time env srv event_id new_start_time new_end_time w
  = (Ok false, mk_world st' (calls w ++ [EventsGet (CALENDAR_ID env) event_id])).
Proof.
  intros Hget. unfold update_event_time, try_except_return.
  by rewrite (execute_run _ _ _ _ Hget).
Qed.

Lemma update_event_time_run (event_id : string)
    (new_start_time new_end_time : datetime) (w : world srv)
    (event body : pyval) st1 r st2 :
  respond srv (EventsGet (CALENDAR_ID env) event_id) (remote w) = (Ok event, st1) →
  with_new_times env event (ensure_aware env new_start_time)
    (ensure_aware env new_end_time) = Ok body →
  respond srv (EventsUpdate (CALENDAR_ID env) event_id body "all") st1 = (r, st2) →
  update_event_time env srv event_id new_start_time new_end_time w
  = (Ok (negb (is_raise r)),
     mk_world st2 (calls w ++ [EventsGet (CALENDAR_ID env) event_id;
                               EventsUpdate (CALENDAR_ID env) event_id body "all"])).
Proof.
  intros Hget Hbody Hupd. unfold update_event_time, try_except_return.
  rewrite (execute_run _ _ _ _ Hget).
  unfold mbind at 1, io_bind, lift. rewrite Hbody.
  unfold try_except, mbind, io_bind.
  rewrite (execute_run _ (mk_world st1 _) r st2 Hupd).
  cbn [calls]. rewrite <- app_assoc. by destruct r.
Qed.

Lemma cancel_event_run (event_id : string) (w : world srv) r st' :
  respond srv (EventsDelete (CALENDAR_ID env) event_id "all") (remote w) = (r, st') →
  cancel_event env srv event_id w
  = (Ok (negb (is_raise r)),
     mk_world st' (calls w ++ [EventsDelete (CALENDAR_ID env) event_id "all"])).
Proof.
  intros Hdel. unfold cancel_event, try_except, mbind, io_bind.
  rewrite (execute_run _ _ _ _ Hdel). by destruct r.
Qed.

Lemma is_free_on_date_raises (date_to_be_checked : date) (w : world srv) e st' :
  respond srv (freebusy_request env date_to_be_checked) (remote w) = (Raise e, st') →
  is_free_on_date env srv date_to_be_checked w
  = (Raise e, mk_world st' (calls w ++ [freebusy_request env date_to_be_checked])).
Proof.
  intros Hq. unfold is_free_on_date, mbind at 1, io_bind.
  by rewrite (execute_run _ _ _ _ Hq).
Qed.

(** With a well-formed response, the answer is whether the busy list is
    empty. *)
Lemma is_free_on_date_run (date_to_be_checked : date) (w : world srv)
    (response calendars calendar : gmap string pyval) (busy : list pyval) st' :
  respond srv (freebusy_request env date_to_be_checked) (remote w)
    = (Ok (PDict response), st') →
  response !! "calendars" = Some (PDict calendars) →
  calendars !! CALENDAR_ID env = Some (PDict calendar) →
  calendar !! "busy" = Some (PList busy) →
  is_free_on_date env srv date_to_be_checked w
  = (Ok (bool_decide (busy = [])),
     mk_world st' (calls w ++ [freebusy_request env date_to_be_checked])).
Proof.
  intros Hq H1 H2 H3. unfold is_free_on_date, mbind at 1, io_bind.
  rewrite (execute_run _ _ _ _ Hq).
  unfold mbind at 1, io_bind, lift. cbn [py_getitem mbind outcome_bind].
  rewrite H1. cbn [py_getitem mbind outcome_bind]. rewrite H2.
  cbn [py_getitem mbind outcome_bind]. rewrite H3.
  unfold mbind, io_bind, mret, io_ret. cbn [py_len].
  by destruct busy.
Qed.

Lemma create_event_raises (title : string) (start_time end_time : datetime)
    (description : option string) (w : world srv) e st' :
  respond srv (insert_request env title start_time end_time description) (remote w)
    = (Raise e, st') →
  create_event env srv title start_time end_time description w
  = (Raise e,
     mk_world st' (calls w ++ [insert_request env title start_time end_time description])).
Proof.
  intros Hins. unfold create_event, mbind, io_bind.
  by rewrite (execute_run _ _ _ _ Hins).
Qed.

Lemma create_event_run (title : string) (start_time end_time : datetime)
    (description : option string) (w : world srv) (created : pyval) st' :
  respond srv (insert_request env title start_time end_time description) (remote w)
    = (Ok created, st') →
  create_event env srv title start_time end_time description w
  = (py_getitem created "id",
     mk_world st' (calls w ++ [insert_request env title start_time end_time description])).
Proof.
  intros Hins. unfold create_event, mbind, io_bind.
  by rewrite (execute_run _ _ _ _ Hins).
Qed.

Lemma get_event_id_by_start_time_raises (start_time : datetime) (window_minutes : Z)
    (w : world srv) e st' :
  respond srv (list_request env start_time window_minutes) (remote w) = (Raise e, st') →
  get_event_id_by_start_time env srv start_time window_minutes w
  = (Raise e, mk_world st' (calls w ++ [list_request env start_time window_minutes])).
Proof.
  intros Hr. unfold get_event_id_by_start_time, mbind at 1, io_bind.
  by rewrite (execute_run _ _ _ _ Hr).
Qed.

End Running.

(** ** The float of the delta check

    [true_divide] rounds to the nearest of the 53-bit numbers of the binade;
    below [2^34] seconds those are less than a microsecond apart around the
    window, so that the float decides the comparison as the quotient does. *)

Lemma round_half_even_le (a b K : Z) :
  0 < b → a ≤ K * b → round_half_even a b ≤ K.
Proof.
  intros Hb Ha. unfold round_half_even.
  pose proof (Z.div_mod a b ltac:(lia)) as Hdm.
  pose proof (Z.mod_pos_bound a b Hb) as Hr.
  assert (Hq : a / b ≤ K).
  { destruct (Z.le_gt_cases (a / b) K) as [|Hgt]; [done|]. exfalso.
    assert (b * (K + 1) ≤ b * (a / b)) by (apply Z.mul_le_mono_nonneg_l; lia). lia. }
  destruct (2 * (a mod b) <? b) eqn:H1; [done|].
  apply Z.ltb_ge in H1.
  assert (a / b < K).
  { destruct (Z.eq_dec (a / b) K) as [Heq|]; [|lia]. exfalso. rewrite Heq in Hdm. lia. }
  destruct (b <? 2 * (a mod b)); [lia|]. destruct (Z.even (a / b)); lia.
Qed.

Lemma round_half_even_gt (a b K : Z) :
  0 < b → (2 * K + 1) * b < 2 * a → K + 1 ≤ round_half_even a b.
Proof.
  intros Hb Ha. unfold round_half_even.
  pose proof (Z.div_mod a b ltac:(lia)) as Hdm.
  pose proof (Z.mod_pos_bound a b Hb) as Hr.
  assert (Hq : K ≤ a / b).
  { destruct (Z.le_gt_cases K (a / b)) as [|Hgt]; [done|]. exfalso.
    assert (b * (a / b + 1) ≤ b * K) by (apply Z.mul_le_mono_nonneg_l; lia). lia. }
  assert (Hcase : a / b = K → b < 2 * (a mod b)).
  { intros Heq. rewrite Heq in Hdm. lia. }
  assert (Hnear : a / b = K ∨ K + 1 ≤ a / b) by lia.
  destruct (2 * (a mod b) <? b) eqn:H1.
  - apply Z.ltb_lt in H1. destruct Hnear as [Heq|]; [|done].
    specialize (Hcase Heq). lia.
  - destruct (b <? 2 * (a mod b)) eqn:H2; [lia|].
    apply Z.ltb_ge in H1, H2. destruct Hnear as [Heq|]; [|destruct (Z.even _); lia].
    specialize (Hcase Heq). lia.
Qed.

Lemma round_half_even_floor (a b K : Z) :
  0 < b → K * b ≤ a → K ≤ round_half_even a b.
Proof.
  intros Hb Ha. unfold round_half_even.
  pose proof (Z.div_mod a b ltac:(lia)) as Hdm.
  pose proof (Z.mod_pos_bound a b Hb) as Hr.
  assert (Hq : K ≤ a / b).
  { destruct (Z.le_gt_cases K (a / b)) as [|Hgt]; [done|]. exfalso.
    assert (b * (a / b + 1) ≤ b * K) by (apply Z.mul_le_mono_nonneg_l; lia). lia. }
  destruct (2 * (a mod b) <? b); [done|].
  destruct (b <? 2 * (a mod b)); [lia|]. destruct (Z.even (a / b)); lia.
Qed.

Lemma binade_mantissa (n d : Z) :
  0 < n → 0 < d →
  2 ^ 52 * scaled_den d (binade n d) ≤ scaled_num n (binade n d).
Proof.
  intros Hn Hd. unfold binade.
  set (e := Z.log2 n - Z.log2 d - 52).
  destruct (scaled_num n e <? scaled_den d e * 2 ^ 52) eqn:Htest;
    [|apply Z.ltb_ge in Htest; lia].
  clear Htest.
  pose proof (Z.log2_spec n Hn) as [HL _].
  pose proof (Z.log2_spec d Hd) as [_ Hl].
  pose proof (Z.log2_nonneg n) as HL0.
  pose proof (Z.log2_nonneg d) as Hl0.
  unfold scaled_num, scaled_den.
  destruct (Z.le_gt_cases 0 (e - 1)) as [He|He].
  - rewrite (Z.max_r 0 (e - 1)), (Z.max_l 0 (- (e - 1))) by lia.
    assert (Hpow : 2 ^ Z.log2 n = 2 ^ 52 * 2 ^ (e - 1) * 2 ^ Z.succ (Z.log2 d)).
    { rewrite <- !Z.pow_add_r by lia. f_equal. lia. }
    assert (0 < 2 ^ 52 * 2 ^ (e - 1)) by (apply Z.mul_pos_pos; lia).
    nia.
  - rewrite (Z.max_l 0 (e - 1)), (Z.max_r 0 (- (e - 1))) by lia.
    assert (Hpow : 2 ^ Z.log2 n * 2 ^ (- (e - 1)) = 2 ^ 52 * 2 ^ Z.succ (Z.log2 d)).
    { rewrite <- !Z.pow_add_r by lia. f_equal. lia. }
    assert (0 < 2 ^ (- (e - 1))) by (apply Z.pow_pos_nonneg; lia).
    nia.
Qed.

Lemma true_divide_le (a N : Z) :
  0 < a → N < 2 ^ 34 →
  Qle_bool (true_divide a 1000000) (inject_Z N) = bool_decide (a ≤ N * 1000000).
Proof.
  intros Ha HN. unfold true_divide.
  destruct (Z.eqb_spec a 0) as [->|_]; [lia|].
  pose proof (binade_mantissa a 1000000 Ha ltac:(lia)) as Hm.
  set (e := binade a 1000000) in *.
  unfold Qle_bool, inject_Z. cbn [Qnum Qden].
  assert (Hpos : 0 < 2 ^ Z.max 0 (- e)) by (apply Z.pow_pos_nonneg; lia).
  rewrite Z2Pos.id by done. rewrite Z.mul_1_r.
  unfold scaled_num, scaled_den in *.
  change (2 ^ 34) with 17179869184 in HN.
  destruct (Z.le_gt_cases 0 e) as [He|He].
  - rewrite (Z.max_r 0 e), (Z.max_l 0 (- e)) in * by lia.
    change (2 ^ 0) with 1 in *. rewrite ?Z.mul_1_r in *.
    assert (H2e : 0 < 2 ^ e) by (apply Z.pow_pos_nonneg; lia).
    pose proof (round_half_even_floor a (1000000 * 2 ^ e) (2 ^ 52)
                  ltac:(lia) Hm) as Hfl.
    set (m := round_half_even a (1000000 * 2 ^ e)) in *.
    change (2 ^ 52) with 4503599627370496 in *.
    assert (m * 1 ≤ m * 2 ^ e) by (apply Z.mul_le_mono_nonneg_l; lia).
    rewrite bool_decide_eq_false_2 by lia.
    apply Z.leb_gt. lia.
  - rewrite (Z.max_l 0 e), (Z.max_r 0 (- e)) in * by lia.
    set (f := - e) in *. assert (Hf : 0 < f) by lia.
    change (2 ^ 0) with 1 in *. rewrite ?Z.mul_1_r in *.
    assert (H2f : 0 < 2 ^ f) by (apply Z.pow_pos_nonneg; lia).
    pose proof (round_half_even_floor (a * 2 ^ f) 1000000 (2 ^ 52)
                  ltac:(lia) Hm) as Hfl.
    set (m := round_half_even (a * 2 ^ f) 1000000) in *.
    change (2 ^ 52) with 4503599627370496 in *.
    destruct (bool_decide_reflect (a ≤ N * 1000000)) as [Hle|Hgt].
    + apply Z.leb_le.
      apply (round_half_even_le _ _ (N * 2 ^ f)); [lia|].
      assert (a * 2 ^ f ≤ (N * 1000000) * 2 ^ f)
        by (apply Z.mul_le_mono_nonneg_r; lia). lia.
    + apply Z.leb_gt.
      destruct (Z.le_gt_cases 19 f) as [Hbig|Hsmall].
      * assert (H20 : 2 ^ 20 ≤ 2 ^ (f + 1)) by (apply Z.pow_le_mono_r; lia).
        assert (Hpf : 2 ^ (f + 1) = 2 * 2 ^ f) by (rewrite Z.pow_add_r by lia; lia).
        change (2 ^ 20) with 1048576 in *.
        assert ((N * 1000000 + 1) * 2 ^ f ≤ a * 2 ^ f)
          by (apply Z.mul_le_mono_nonneg_r; lia).
        pose proof (round_half_even_gt (a * 2 ^ f) 1000000 (N * 2 ^ f)
                      ltac:(lia) ltac:(lia)) as Hup.
        fold m in Hup. lia.
      * assert (H18 : 2 ^ f ≤ 2 ^ 18) by (apply Z.pow_le_mono_r; lia).
        change (2 ^ 18) with 262144 in *.
        destruct (Z.le_gt_cases N 0) as [HN0|HN0].
        -- assert (N * 2 ^ f ≤ 0 * 2 ^ f) by (apply Z.mul_le_mono_nonneg_r; lia). lia.
        -- assert (N * 2 ^ f ≤ N * 262144) by (apply Z.mul_le_mono_nonneg_l; lia). lia.
Qed.

Lemma true_divide_nonneg (a : Z) : 0 ≤ a → (0 <= true_divide a 1000000)%Q.
Proof.
  intros Ha. unfold true_divide. destruct (a =? 0); [done|].
  unfold Qle. cbn [Qnum Qden]. rewrite Z.mul_1_r, Z.mul_0_l.
  apply Z.mul_nonneg_nonneg; [|apply Z.pow_nonneg; lia].
  apply round_half_even_floor.
  - unfold scaled_den. apply Z.mul_pos_pos; [lia | apply Z.pow_pos_nonneg; lia].
  - unfold scaled_num. rewrite Z.mul_0_l.
    apply Z.mul_nonneg_nonneg; [lia | apply Z.pow_nonneg; lia].
Qed.

Lemma float_check_exact (td N : Z) :
  N < 2 ^ 34 →
  Qle_bool (Qabs (total_seconds_float td)) (inject_Z N)
  = bool_decide (Z.abs td ≤ N * 1000000).
Proof.
  intros HN.
  assert (Habs : ∀ a, 0 ≤ a →
            Qle_bool (Qabs (true_divide a 1000000)) (inject_Z N)
            = bool_decide (a ≤ N * 1000000)).
  { intros a Ha. destruct (Z.eq_dec a 0) as [->|Hne].
    - unfold true_divide. cbn. unfold Qle_bool. cbn.
      destruct (bool_decide_reflect (0 ≤ N * 1000000)); [apply Z.leb_le | apply Z.leb_gt]; lia.
    - pose proof (true_divide_nonneg a Ha) as Hnn.
      rewrite <- (true_divide_le a N) by lia.
      unfold Qle_bool, Qabs, Qle in *. destruct (true_divide a 1000000) as [num den].
      cbn [Qnum Qden] in *. rewrite Z.abs_eq by lia. done. }
  unfold total_seconds_float. destruct (Z.ltb_spec td 0) as [Hneg|Hpos].
  - rewrite Z.abs_neq by lia. rewrite <- (Habs (- td)) by lia.
    destruct (true_divide (- td) 1000000) as [num den].
    unfold Qabs, Qopp. cbn [Qnum Qden]. by rewrite Z.abs_opp.
  - rewrite Z.abs_eq by lia. by apply Habs.
Qed.

(** On windows of less than [2^34] seconds the float of the source and the
    exact quotient give the same verdict. *)
Lemma within_window_float_exact (ev_dt start_time : datetime) (window_minutes : Z) :
  window_minutes * 60 < 2 ^ 34 →
  within_window_float ev_dt start_time window_minutes
  = within_window ev_dt start_time window_minutes.
Proof.
  intros Hw. unfold within_window_float, within_window.
  destruct (datetime_sub ev_dt start_time) as [delta|e]; [|done].
  cbn [mbind outcome_bind].
  by rewrite (float_check_exact _ _ Hw), total_seconds_le.
Qed.

Lemma scan_events_float_exact (env : Env) (start_time : datetime)
    (window_minutes : Z) (items : list pyval) :
  window_minutes * 60 < 2 ^ 34 →
  scan_events_float env start_time window_minutes items
  = scan_events env start_time window_minutes items.
Proof.
  intros Hw. induction items as [|event rest IH]; [done|].
  cbn [scan_events_float scan_events]. rewrite IH.
  destruct (raw_start_of event) as [raw_start|e]; [|done]. cbn [mbind outcome_bind].
  destruct (negb (truthy raw_start)); [done|].
  destruct (parse_raw_start env raw_start) as [ev_dt|e]; [|done].
  cbn [mbind outcome_bind]. by rewrite (within_window_float_exact _ _ _ Hw).
Qed.

(** So the operation with the float check is the operation with the exact
    one, on those windows. *)
Lemma get_event_id_by_start_time_float_exact (env : Env) (srv : Service)
    (start_time : datetime) (window_minutes : Z) (w : world srv) :
  window_minutes * 60 < 2 ^ 34 →
  get_event_id_by_start_time_float env srv start_time window_minutes w
  = get_event_id_by_start_time env srv start_time window_minutes w.
Proof.
  intros Hw. unfold get_event_id_by_start_time_float, get_event_id_by_start_time.
  unfold mbind, io_bind.
  destruct (execute _ w) as [[events_result|e] w1]; [|done].
  destruct (lift _ w1) as [[items|e] w2]; [|done].
  by rewrite (scan_events_float_exact _ _ _ _ Hw).
Qed.

(** ** Resolving an event by its start time *)

Lemma scan_events_unparseable (env : Env) (start_time : datetime)
    (window_minutes : Z) (event : pyval) (rest : list pyval) :
  unparseable_start env event →
  scan_events env start_time window_minutes (event :: rest) = Raise ValueError.
Proof.
  intros (start & raw & Hobj & Hfield & Hraw & H1 & H2). cbn [scan_events].
  assert (Hstart : raw_start_of event = Ok (PStr raw)).
  { destruct Hfield as [Hdt | [Hno Hdate]].
    - by apply (raw_start_date_time _ start).
    - by apply (raw_start_all_day _ start). }
  rewrite Hstart. cbn [mbind outcome_bind]. rewrite (truthy_str _ Hraw). cbn [negb].
  unfold parse_raw_start, datetime_fromisoformat, py_replace_Z.
  rewrite H1. cbn [mbind outcome_bind]. by rewrite H2.
Qed.

(** C1, as the code has it.  For a window of less than [2^34] seconds, on
    which the float of [total_seconds] decides the comparison as the exact
    quotient does, and once the listing has answered:
    [get_event_id_by_start_time] returns the id of the first listed event
    whose extracted start (the date-time field, else the all-day date field,
    read in the default zone when naive) lies within [window_minutes * 60]
    seconds of the target, the events listed before it yielding no start or
    one outside the window, whatever the events listed after it, a nearer
    one included; it returns [None] when every listed event yields no start
    or one outside the window, and so when the listing is empty; and it
    raises [ValueError] when the scan reaches an event whose start text does
    not parse. *)
Theorem get_event_id_by_start_time_first_match_or_error
    (env : Env) (srv : Service) (start_time : datetime) (window_minutes : Z)
    (w : world srv) (response : pyval) st' (items : list pyval) :
  window_minutes * 60 < 2 ^ 34 →
  respond srv (list_request env start_time window_minutes) (remote w)
    = (Ok response, st') →
  listed response items →
  (∀ pre event post id,
      items = pre ++ event :: post →
      Forall (passed_over env start_time window_minutes) pre →
      candidate env start_time window_minutes event →
      event_id event id →
      (get_event_id_by_start_time_float env srv start_time window_minutes w).1 = Ok id)
  ∧ (Forall (passed_over env start_time window_minutes) items →
     (get_event_id_by_start_time_float env srv start_time window_minutes w).1
     = Ok PNone)
  ∧ (items = [] →
     (get_event_id_by_start_time_float env srv start_time window_minutes w).1
     = Ok PNone)
  ∧ (∀ pre event post,
       items = pre ++ event :: post →
       Forall (passed_over env start_time window_minutes) pre →
       unparseable_start env event →
       (get_event_id_by_start_time_float env srv start_time window_minutes w).1
       = Raise ValueError).
Proof.
  intros Hw Hr Hl. rewrite (get_event_id_by_start_time_float_exact _ _ _ _ _ Hw).
  rewrite (get_event_id_by_start_time_run _ _ _ _ _ _ _ _ Hr Hl).
  cbn [fst]. split; [|split; [|split]].
  - intros pre event post id -> Hpre Hc Hid.
    rewrite (scan_events_first_match _ _ _ _ _ _ Hpre Hc).
    by apply py_getitem_event_id.
  - apply scan_events_none.
  - by intros ->.
  - intros pre event post -> Hpre Hbad.
    rewrite (scan_events_passed_over _ _ _ _ _ Hpre).
    by apply scan_events_unparseable.
Qed.

(** The start of a stored event whose date-time field holds [raw]: the start
    object and the parse are found by evaluation. *)
Ltac start_from_date_time raw dt :=
  apply (start_date_time _ _ (MemCalendar.time_object raw) raw dt);
  [ eexists; split; [reflexivity | left; by vm_compute]
  | by vm_compute
  | discriminate
  | left; by vm_compute ].

Lemma get_event_id_by_start_time_first_match_or_error_witness :
  (get_event_id_by_start_time_float env_kolkata_host MemCalendar.service target 60
     two_candidates).1 = Ok (PStr "first")
  ∧ Z.abs (instant env_kolkata_host (at_ 2025 7 1 10 5 (Some 330))
           - instant env_kolkata_host target)
    < Z.abs (instant env_kolkata_host (at_ 2025 7 1 9 10 (Some 330))
             - instant env_kolkata_host target).
Proof.
  split; [|by vm_compute].
  destruct (get_event_id_by_start_time_first_match_or_error env_kolkata_host
              MemCalendar.service target 60 two_candidates
              (py_dict [("kind", PStr "calendar#events");
                        ("items", PList [design_review; standup])])
              (MemCalendar.mk_state 1 [design_review; standup])
              [design_review; standup]) as (Hfirst & _).
  - by vm_compute.
  - by vm_compute.
  - eexists. split; [reflexivity | by vm_compute].
  - apply (Hfirst [] design_review [standup] (PStr "first")).
    + reflexivity.
    + constructor.
    + exists (at_ 2025 7 1 9 10 (Some 330)). split.
      * start_from_date_time "2025-07-01T09:10:00+05:30" (at_ 2025 7 1 9 10 (Some 330)).
      * by vm_compute.
    + eexists. split; [reflexivity | by vm_compute].
Defined.

(** C1 as stated fails in two places.  Where it promises [None] whenever no
    listed event passes the delta check: on a listing whose only event has a
    date-time that does not parse, no event passes the check and the
    operation raises [ValueError].  And where it bounds the distance of the
    returned event by the window: with a window of 300 000 000 minutes the
    float of [total_seconds] is coarser than a microsecond, and the id of an
    event that starts one microsecond beyond the window is returned. *)
Lemma get_event_id_by_start_time_raises_or_overshoots :
  ¬ (∀ (env : Env) (srv : Service) (start_time : datetime) (window_minutes : Z)
       (w : world srv) (response : pyval) st' (items : list pyval),
       respond srv (list_request env start_time window_minutes) (remote w)
         = (Ok response, st') →
       listed response items →
       Forall (λ event, ¬ candidate env start_time window_minutes event) items →
       (get_event_id_by_start_time_float env srv start_time window_minutes w).1
       = Ok PNone)
  ∧ ¬ (∀ (env : Env) (srv : Service) (start_time : datetime) (window_minutes : Z)
         (w : world srv) (response : pyval) st' (items : list pyval) (id : pyval),
         respond srv (list_request env start_time window_minutes) (remote w)
           = (Ok response, st') →
         listed response items →
         (get_event_id_by_start_time_float env srv start_time window_minutes w).1
           = Ok id →
         id ≠ PNone →
         ∃ event, event ∈ items
                  ∧ candidate env start_time window_minutes event
                  ∧ event_id event id).
Proof.
  split.
  - intros H.
    specialize (H env_kolkata_host (answering (py_dict [("items", PList [scribbled])]))
                  target 60
                  (before (answering (py_dict [("items", PList [scribbled])])) ())
                  (py_dict [("items", PList [scribbled])]) () [scribbled] eq_refl).
    assert (Hnone : (get_event_id_by_start_time_float env_kolkata_host
                       (answering (py_dict [("items", PList [scribbled])])) target 60
                       (before (answering (py_dict [("items", PList [scribbled])])) ())).1
                    = Ok PNone).
    { apply H.
      - eexists. split; [reflexivity | by vm_compute].
      - constructor; [|constructor].
        intros (dt & Hstart & _).
        inversion Hstart as [start raw dt' (d & Hd & Hobj) Hdt Hraw Hp
                            | start raw dt' (d & Hd & Hobj) Hno Hdate Hraw Hp |];
          unfold scribbled, py_dict in Hd; injection Hd as <-;
          (destruct Hobj as [Hobj | [Hobj _]];
           [|vm_compute in Hobj; discriminate Hobj]);
          vm_compute in Hobj; injection Hobj as <-.
        + vm_compute in Hdt. injection Hdt as <-.
          destruct Hp as [Hp | [_ Hp]]; vm_compute in Hp; discriminate Hp.
        + vm_compute in Hno. discriminate Hno. }
    vm_compute in Hnone. discriminate Hnone.
  - intros H.
    destruct (H env_kolkata_host (answering (py_dict [("items", PList [far_off])]))
                target 300000000
                (before (answering (py_dict [("items", PList [far_off])])) ())
                (py_dict [("items", PList [far_off])]) () [far_off] (PStr "far")
                eq_refl)
      as (event & Hin & (dt & Hstart & Hwithin) & _).
    + eexists. split; [reflexivity | by vm_compute].
    + by vm_compute.
    + discriminate.
    + apply list_elem_of_singleton in Hin as ->.
      inversion Hstart as [start raw dt' (d & Hd & Hobj) Hdt Hraw Hp Heq
                          | start raw dt' (d & Hd & Hobj) Hno Hdate Hraw Hp Heq |];
        unfold far_off, py_dict in Hd; injection Hd as <-;
        (destruct Hobj as [Hobj | [Hobj _]];
         [|vm_compute in Hobj; discriminate Hobj]);
        vm_compute in Hobj; injection Hobj as <-.
      * vm_compute in Hdt. injection Hdt as <-.
        destruct Hp as [Hp | [Hp _]]; vm_compute in Hp; [|discriminate Hp].
        injection Hp as <-. subst dt. vm_compute in Hwithin. by apply Hwithin.
      * vm_compute in Hno. discriminate Hno.
Qed.




Lemma scan_events_skip (env : Env) (start_time : datetime) (window_minutes : Z)
    (event : pyval) (rest : list pyval) start :
  start_object event start →
  no_value (start !! "dateTime") →
  no_value (start !! "date") →
  scan_events env start_time window_minutes (event :: rest)
  = scan_events env start_time window_minutes rest.
Proof.
  intros Hs Hdt Hdate.
  destruct (raw_start_missing _ _ Hs Hdt Hdate) as (raw & Hraw & Hf).
  cbn [scan_events]. rewrite Hraw. cbn [mbind outcome_bind]. by rewrite Hf.
Qed.

Lemma scan_events_skip_inside (env : Env) (start_time : datetime)
    (window_minutes : Z) (pre post : list pyval) (event : pyval) start :
  start_object event start →
  no_value (start !! "dateTime") →
  no_value (start !! "date") →
  scan_events env start_time window_minutes (pre ++ event :: post)
  = scan_events env start_time window_minutes (pre ++ post).
Proof.
  intros Hs Hdt Hdate. induction pre as [| e pre IH].
  - apply (scan_events_skip _ _ _ _ _ _ Hs Hdt Hdate).
  - rewrite <- !app_comm_cons. cbn [scan_events]. by rewrite IH.
Qed.

(** C10. A listed event whose start object has neither a date-time nor an
    all-day date field (or that has no start object at all) is skipped: the
    scan gives what it gives on the listing without that event, so the event
    is not returned on its own account and raises nothing. *)
Theorem get_event_id_by_start_time_skips_startless
    (env : Env) (srv : Service) (start_time : datetime) (window_minutes : Z)
    (pre post : list pyval) (event : pyval) start :
  start_object event start →
  no_value (start !! "dateTime") →
  no_value (start !! "date") →
  (∀ t, scan_events env t window_minutes (pre ++ event :: post)
        = scan_events env t window_minutes (pre ++ post))
  ∧ (∀ (w : world srv) response st',
       respond srv (list_request env start_time window_minutes) (remote w)
         = (Ok response, st') →
       listed response (pre ++ event :: post) →
       (get_event_id_by_start_time env srv start_time window_minutes w).1
       = scan_events env (ensure_aware env start_time) window_minutes (pre ++ post)).
Proof.
  intros Hs Hdt Hdate. split.
  - intros t. apply (scan_events_skip_inside _ _ _ _ _ _ _ Hs Hdt Hdate).
  - intros w response st' Hr Hl.
    rewrite (get_event_id_by_start_time_run _ _ _ _ _ _ _ _ Hr Hl). cbn [fst].
    apply (scan_events_skip_inside _ _ _ _ _ _ _ Hs Hdt Hdate).
Qed.

Lemma get_event_id_by_start_time_skips_startless_witness :
  (get_event_id_by_start_time env_kolkata_host
     (answering (py_dict [("items", PList [draft; standup])])) target 60
     (@mk_world (answering (py_dict [("items", PList [draft; standup])])) () [])).1
  = Ok (PStr "second").
Proof.
  destruct (get_event_id_by_start_time_skips_startless env_kolkata_host
              (answering (py_dict [("items", PList [draft; standup])])) target 60
              [] [standup] draft
              (list_to_map [("timeZone", PStr "Asia/Kolkata")])) as [_ Hop].
  - eexists. split; [reflexivity | left; by vm_compute].
  - by vm_compute.
  - by vm_compute.
  - rewrite (Hop _ (py_dict [("items", PList [draft; standup])]) ()).
    + by vm_compute.
    + by vm_compute.
    + eexists. split; [reflexivity | by vm_compute].
Defined.

(** ** Remote failures *)

(** C8. [create_event] and [get_event_id_by_start_time] have no handler: an
    exception raised by the remote insert, or by the remote listing, reaches
    the caller as it is. *)
Theorem remote_errors_propagate
    (env : Env) (srv : Service) (w : world srv) (e : exn) st' :
  (∀ title start_time end_time description,
      respond srv (insert_request env title start_time end_time description) (remote w)
        = (Raise e, st') →
      (create_event env srv title start_time end_time description w).1 = Raise e)
  ∧ (∀ start_time window_minutes,
       respond srv (list_request env start_time window_minutes) (remote w)
         = (Raise e, st') →
       (get_event_id_by_start_time env srv start_time window_minutes w).1 = Raise e).
Proof.
  split.
  - intros title start_time end_time description H.
    by rewrite (create_event_raises _ _ _ _ _ _ _ _ _ H).
  - intros start_time window_minutes H.
    by rewrite (get_event_id_by_start_time_raises _ _ _ _ _ _ _ H).
Qed.

Lemma remote_errors_propagate_witness :
  (create_event env_kolkata_host unreachable "Standup" target
     (at_ 2025 7 1 10 30 None) None out_of_reach).1
  = Raise (TransportError "connection refused")
  ∧ (get_event_id_by_start_time env_kolkata_host unreachable target 60 out_of_reach).1
    = Raise (TransportError "connection refused").
Proof.
  destruct (remote_errors_propagate env_kolkata_host unreachable out_of_reach
              (TransportError "connection refused") ()) as [Hcreate Hresolve].
  split.
  - apply Hcreate. reflexivity.
  - apply Hresolve. reflexivity.
Defined.

(** C6. When the fetch of the event raises, as it does for an id the calendar
    does not know, [update_event_time] returns [False] and raises nothing;
    the fetch is the only request it has executed, so no update reaches the
    calendar, whose state is the one the failed fetch left. *)
Theorem update_event_time_fetch_failure
    (env : Env) (srv : Service) (event_id : string)
    (new_start_time new_end_time : datetime) (w : world srv) (e : exn) st' :
  respond srv (EventsGet (CALENDAR_ID env) event_id) (remote w) = (Raise e, st') →
  (update_event_time env srv event_id new_start_time new_end_time w).1 = Ok false
  ∧ calls (update_event_time env srv event_id new_start_time new_end_time w).2
    = calls w ++ [EventsGet (CALENDAR_ID env) event_id]
  ∧ remote (update_event_time env srv event_id new_start_time new_end_time w).2 = st'.
Proof.
  intros H. by rewrite (update_event_time_fetch_failed _ _ _ _ _ _ _ _ H).
Qed.

Lemma update_event_time_fetch_failure_witness :
  (update_event_time env_kolkata_host MemCalendar.service "missing" target
     (at_ 2025 7 1 10 30 None) one_earlier).1 = Ok false
  ∧ calls (update_event_time env_kolkata_host MemCalendar.service "missing" target
             (at_ 2025 7 1 10 30 None) one_earlier).2
    = [EventsGet "primary" "missing"]
  ∧ remote (update_event_time env_kolkata_host MemCalendar.service "missing" target
              (at_ 2025 7 1 10 30 None) one_earlier).2
    = remote one_earlier.
Proof.
  apply (update_event_time_fetch_failure env_kolkata_host MemCalendar.service
           "missing" target (at_ 2025 7 1 10 30 None) one_earlier (HttpError 404)
           (remote one_earlier)).
  by vm_compute.
Defined.

Lemma with_new_times_run (env : Env) (d start end_ : gmap string pyval)
    (new_start_time new_end_time : datetime) :
  d !! "start" = Some (PDict start) →
  d !! "end" = Some (PDict end_) →
  with_new_times env (PDict d) new_start_time new_end_time
  = Ok (PDict (<["end" := PDict (<["dateTime" := PStr (isoformat env new_end_time)]> end_)]>
                 (<["start" := PDict (<["dateTime" := PStr (isoformat env new_start_time)]> start)]>
                    d))).
Proof.
  intros Hs He. unfold with_new_times, py_setitem2.
  cbn [py_getitem mbind outcome_bind]. rewrite Hs.
  cbn [py_getitem py_setitem mbind outcome_bind].
  rewrite lookup_insert_ne by done. by rewrite He.
Qed.

(** C7. When the fetch succeeds, [update_event_time] sends back the fetched
    event with the date-time of its start and of its end overwritten and
    nothing else touched: every other key of the event, and every other key
    of its start and end objects, reaches the update call as fetched.  The
    result is [True] when the update call returns, and [False] when the
    update call raises or the fetch has raised. *)
Theorem update_event_time_overwrites_only_times
    (env : Env) (srv : Service) (event_id : string)
    (new_start_time new_end_time : datetime) (w : world srv) :
  (∀ (d start end_ : gmap string pyval) st1,
      respond srv (EventsGet (CALENDAR_ID env) event_id) (remote w)
        = (Ok (PDict d), st1) →
      d !! "start" = Some (PDict start) →
      d !! "end" = Some (PDict end_) →
      ∃ (body start' end' : gmap string pyval),
        let update := EventsUpdate (CALENDAR_ID env) event_id (PDict body) "all" in
        calls (update_event_time env srv event_id new_start_time new_end_time w).2
          = calls w ++ [EventsGet (CALENDAR_ID env) event_id; update]
        ∧ (∀ key, key ≠ "start" → key ≠ "end" → body !! key = d !! key)
        ∧ body !! "start" = Some (PDict start')
        ∧ body !! "end" = Some (PDict end')
        ∧ (∀ key, key ≠ "dateTime" → start' !! key = start !! key)
        ∧ (∀ key, key ≠ "dateTime" → end' !! key = end_ !! key)
        ∧ start' !! "dateTime"
          = Some (PStr (isoformat env (ensure_aware env new_start_time)))
        ∧ end' !! "dateTime"
          = Some (PStr (isoformat env (ensure_aware env new_end_time)))
        ∧ (update_event_time env srv event_id new_start_time new_end_time w).1
          = Ok (negb (is_raise (respond srv update st1).1)))
  ∧ (∀ e st',
       respond srv (EventsGet (CALENDAR_ID env) event_id) (remote w) = (Raise e, st') →
       (update_event_time env srv event_id new_start_time new_end_time w).1 = Ok false).
Proof.
  split.
  - intros d start end_ st1 Hget Hs He.
    pose proof (with_new_times_run env d start end_ (ensure_aware env new_start_time)
                  (ensure_aware env new_end_time) Hs He) as Hbody.
    eexists _, _, _. cbn zeta.
    rewrite (update_event_time_run env srv event_id new_start_time new_end_time w
               _ _ st1 _ _ Hget Hbody (surjective_pairing _)).
    cbn [fst snd calls]. split; [reflexivity|].
    split; [intros key H1 H2; by rewrite !lookup_insert_ne|].
    split; [by rewrite lookup_insert_ne, lookup_insert_eq|].
    split; [by rewrite lookup_insert_eq|].
    split; [intros key H; by rewrite lookup_insert_ne|].
    split; [intros key H; by rewrite lookup_insert_ne|].
    split; [by rewrite lookup_insert_eq|].
    split; [by rewrite lookup_insert_eq|].
    reflexivity.
  - intros e st' H. by rewrite (update_event_time_fetch_failed _ _ _ _ _ _ _ _ H).
Qed.

Lemma update_event_time_overwrites_only_times_witness :
  ∃ body : gmap string pyval,
    calls (update_event_time env_kolkata_host MemCalendar.service "early"
             (at_ 2025 7 1 11 0 None) (at_ 2025 7 1 11 30 None) one_earlier).2
      = [EventsGet "primary" "early"; EventsUpdate "primary" "early" (PDict body) "all"]
    ∧ body !! "summary" = Some (PStr "Call")
    ∧ body !! "id" = Some (PStr "early")
    ∧ (update_event_time env_kolkata_host MemCalendar.service "early"
         (at_ 2025 7 1 11 0 None) (at_ 2025 7 1 11 30 None) one_earlier).1 = Ok true.
Proof.
  destruct (update_event_time_overwrites_only_times env_kolkata_host
              MemCalendar.service "early"
              (at_ 2025 7 1 11 0 None) (at_ 2025 7 1 11 30 None) one_earlier)
    as [Hfetched _].
  destruct (Hfetched
              (list_to_map [
                 ("id", PStr "early");
                 ("summary", PStr "Call");
                 ("start", PDict (MemCalendar.time_object "2025-07-01T09:55:00+05:30"));
                 ("end", PDict (MemCalendar.time_object "2025-07-01T10:25:00+05:30"))])
              (MemCalendar.time_object "2025-07-01T09:55:00+05:30")
              (MemCalendar.time_object "2025-07-01T10:25:00+05:30")
              (remote one_earlier))
    as (body & start' & end' & Hcalls & Hframe & _ & _ & _ & _ & _ & _ & Hres).
  - by vm_compute.
  - by vm_compute.
  - by vm_compute.
  - exists body. split; [exact Hcalls|].
    split; [rewrite Hframe; [by vm_compute | discriminate | discriminate]|].
    split; [rewrite Hframe; [by vm_compute | discriminate | discriminate]|].
    rewrite Hres. by vm_compute.
Defined.

(** C2, as the code has it. [update_event_time] and [cancel_event] never let
    a remote failure out: whatever the remote delete, fetch or update call
    raises is caught and [False] is returned.  [is_free_on_date] has no
    handler: what the free/busy query raises reaches the caller. *)
Theorem boolean_operations_on_remote_failure
    (env : Env) (srv : Service) (w : world srv) (e : exn) :
  (∀ event_id st',
      respond srv (EventsDelete (CALENDAR_ID env) event_id "all") (remote w)
        = (Raise e, st') →
      (cancel_event env srv event_id w).1 = Ok false)
  ∧ (∀ event_id new_start_time new_end_time st',
       respond srv (EventsGet (CALENDAR_ID env) event_id) (remote w) = (Raise e, st') →
       (update_event_time env srv event_id new_start_time new_end_time w).1 = Ok false)
  ∧ (∀ event_id new_start_time new_end_time event body st1 st2,
       respond srv (EventsGet (CALENDAR_ID env) event_id) (remote w) = (Ok event, st1) →
       with_new_times env event (ensure_aware env new_start_time)
         (ensure_aware env new_end_time) = Ok body →
       respond srv (EventsUpdate (CALENDAR_ID env) event_id body "all") st1
         = (Raise e, st2) →
       (update_event_time env srv event_id new_start_time new_end_time w).1 = Ok false)
  ∧ (∀ date_to_be_checked st',
       respond srv (freebusy_request env date_to_be_checked) (remote w) = (Raise e, st') →
       (is_free_on_date env srv date_to_be_checked w).1 = Raise e).
Proof.
  split; [|split; [|split]].
  - intros event_id st' H. by rewrite (cancel_event_run _ _ _ _ _ _ H).
  - intros event_id ns ne st' H.
    by rewrite (update_event_time_fetch_failed _ _ _ _ _ _ _ _ H).
  - intros event_id ns ne event body st1 st2 Hget Hbody Hupd.
    by rewrite (update_event_time_run _ _ _ _ _ _ _ _ _ _ _ Hget Hbody Hupd).
  - intros date_to_be_checked st' H. by rewrite (is_free_on_date_raises _ _ _ _ _ _ H).
Qed.

Lemma boolean_operations_on_remote_failure_witness :
  (cancel_event env_kolkata_host unreachable "early" out_of_reach).1 = Ok false
  ∧ (update_event_time env_kolkata_host unreachable "early"
       (at_ 2025 7 1 11 0 None) (at_ 2025 7 1 11 30 None) out_of_reach).1 = Ok false
  ∧ (update_event_time env_kolkata_host read_only "early"
       (at_ 2025 7 1 11 0 None) (at_ 2025 7 1 11 30 None) shared_read_only).1 = Ok false
  ∧ (is_free_on_date env_kolkata_host unreachable july_1 out_of_reach).1
    = Raise (TransportError "connection refused").
Proof.
  destruct (boolean_operations_on_remote_failure env_kolkata_host unreachable
              out_of_reach (TransportError "connection refused"))
    as (Hcancel & Hfetch & _ & Hfree).
  destruct (boolean_operations_on_remote_failure env_kolkata_host read_only
              shared_read_only (HttpError 403)) as (_ & _ & Hupdate & _).
  split; [|split; [|split]].
  - apply (Hcancel "early" ()). reflexivity.
  - apply (Hfetch "early" _ _ ()). reflexivity.
  - eapply (Hupdate "early" _ _ early_call _ (remote shared_read_only)
              (remote shared_read_only)).
    + by vm_compute.
    + apply (with_new_times_run env_kolkata_host _
               (MemCalendar.time_object "2025-07-01T09:55:00+05:30")
               (MemCalendar.time_object "2025-07-01T10:25:00+05:30")); by vm_compute.
    + reflexivity.
  - apply (Hfree july_1 ()). reflexivity.
Defined.

(** C2 as stated fails for [is_free_on_date]: with the calendar out of reach
    it raises instead of returning [False]. *)
Lemma is_free_on_date_lets_remote_failure_out :
  ¬ (∀ (env : Env) (srv : Service) (date_to_be_checked : date) (w : world srv)
       (e : exn) st',
       respond srv (freebusy_request env date_to_be_checked) (remote w) = (Raise e, st') →
       (is_free_on_date env srv date_to_be_checked w).1 = Ok false).
Proof.
  intros H.
  specialize (H env_kolkata_host unreachable july_1 out_of_reach
                (TransportError "connection refused") () eq_refl).
  vm_compute in H. discriminate H.
Qed.

(** ** The day range of the availability check *)

(** Where the host's zone is the default zone, the range runs from 00:00 to
    23:59 of the date in that zone. *)
Lemma freebusy_request_on_default_zone_host (env : Env) (date_to_be_checked : date) :
  system_zone env = tz env →
  (∀ wl, offset_at_utc (tz env) (wl - offset_of_wall (tz env) wl)
         = offset_of_wall (tz env) wl) →
  freebusy_request env date_to_be_checked
  = FreebusyQuery (py_dict [
      ("timeMin", PStr (isoformat env
         (localize (tz env) (combine date_to_be_checked (mk_time 0 0)))));
      ("timeMax", PStr (isoformat env
         (localize (tz env) (combine date_to_be_checked (mk_time 23 59)))));
      ("timeZone", PStr (TIMEZONE env));
      ("items", PList [py_dict [("id", PStr (CALENDAR_ID env))]])
    ]).
Proof.
  intros Hsys Hcoh. unfold freebusy_request, astimezone, localize.
  rewrite Hsys. fold (tz env). cbn [combine utcoffset wall].
  rewrite !Hcoh, !Z.sub_add. reflexivity.
Qed.

(** C3, on a host whose clock is set to UTC while [TIMEZONE] is Asia/Kolkata.
    For 1 July 2025 the query runs from 05:30 on 1 July to 05:29 on 2 July
    Indian time, not from 00:00 to 23:59 of 1 July: the naive midnight is read
    in the host's zone by [astimezone].  On a calendar with one event from
    02:00 to 03:00 that day the check answers [True]; on a host set to Indian
    time the same check queries 00:00 to 23:59 and answers [False]. *)
Theorem is_free_on_date_day_range_on_utc_host :
  calls (is_free_on_date env_utc_host MemCalendar.service july_1 one_at_night).2
    = [freebusy_query_between "2025-07-01T05:30:00+05:30" "2025-07-02T05:29:00+05:30"]
  ∧ (is_free_on_date env_utc_host MemCalendar.service july_1 one_at_night).1 = Ok true
  ∧ calls (is_free_on_date env_kolkata_host MemCalendar.service july_1 one_at_night).2
    = [freebusy_query_between "2025-07-01T00:00:00+05:30" "2025-07-01T23:59:00+05:30"]
  ∧ (is_free_on_date env_kolkata_host MemCalendar.service july_1 one_at_night).1
    = Ok false.
Proof. repeat split; by vm_compute. Qed.

(** C4, on the same host.  The midnight [is_free_on_date] builds from the date
    is naive; it is qualified with the default zone, but read in the host's
    zone: the instant sent is five and a half hours after the one
    [tz.localize] gives, which is how the other operations read a naive
    argument. *)
Theorem is_free_on_date_midnight_read_in_host_zone :
  utcoffset (combine july_1 (mk_time 0 0)) = None
  ∧ utcoffset (astimezone (system_zone env_utc_host) (tz env_utc_host)
                 (combine july_1 (mk_time 0 0)))
    = utcoffset (localize (tz env_utc_host) (combine july_1 (mk_time 0 0)))
  ∧ instant env_utc_host
      (astimezone (system_zone env_utc_host) (tz env_utc_host)
         (combine july_1 (mk_time 0 0)))
    = instant env_utc_host (localize (tz env_utc_host) (combine july_1 (mk_time 0 0)))
      + 330 * usec_per_minute
  ∧ freebusy_request env_utc_host july_1
    = freebusy_query_between "2025-07-01T05:30:00+05:30" "2025-07-02T05:29:00+05:30"
  ∧ isoformat env_utc_host (localize (tz env_utc_host) (combine july_1 (mk_time 0 0)))
    = "2025-07-01T00:00:00+05:30".
Proof. repeat split; by vm_compute. Qed.

(** What the other three operations do with a naive argument, and that what
    they use is always qualified. *)
Lemma naive_argument_read_in_default_zone (env : Env) (dt : datetime) :
  utcoffset dt = None →
  ensure_aware env dt = localize (tz env) dt
  ∧ utcoffset (ensure_aware env dt) = Some (offset_of_wall (tz env) (wall dt))
  ∧ instant env (ensure_aware env dt) = wall dt - offset_of_wall (tz env) (wall dt).
Proof.
  intros H. rewrite (ensure_aware_naive _ _ H). unfold instant, localize.
  by cbn [utcoffset wall].
Qed.

(** ** Create, then resolve *)








(** ** Further properties of the adapter *)

(** X1. [cancel_event] never raises.  It executes the delete request for the
    given id, and nothing else; it returns [True] when that call returns and
    [False] when it raises. *)
Theorem cancel_event_contract
    (env : Env) (srv : Service) (event_id : string) (w : world srv) :
  let delete := EventsDelete (CALENDAR_ID env) event_id "all" in
  (cancel_event env srv event_id w).1
    = Ok (negb (is_raise (respond srv delete (remote w)).1))
  ∧ calls (cancel_event env srv event_id w).2 = calls w ++ [delete]
  ∧ remote (cancel_event env srv event_id w).2 = (respond srv delete (remote w)).2.
Proof.
  cbn zeta.
  by rewrite (cancel_event_run env srv event_id w _ _ (surjective_pairing _)).
Qed.

(** X2. The two query operations are read-only towards the calendar: once the
    remote has answered the request the operation builds, with a response or
    with a failure, and whether or not the operation raises afterwards,
    [is_free_on_date] has executed that one free/busy query and
    [get_event_id_by_start_time] that one listing, and the calendar is left
    as that request left it. *)
Theorem query_operations_execute_one_request
    (env : Env) (srv : Service) (w : world srv) (answer : outcome pyval) st' :
  (∀ date_to_be_checked,
      respond srv (freebusy_request env date_to_be_checked) (remote w) = (answer, st') →
      calls (is_free_on_date env srv date_to_be_checked w).2
        = calls w ++ [freebusy_request env date_to_be_checked]
      ∧ remote (is_free_on_date env srv date_to_be_checked w).2 = st')
  ∧ (∀ start_time window_minutes,
       respond srv (list_request env start_time window_minutes) (remote w)
         = (answer, st') →
       calls (get_event_id_by_start_time env srv start_time window_minutes w).2
         = calls w ++ [list_request env start_time window_minutes]
       ∧ remote (get_event_id_by_start_time env srv start_time window_minutes w).2
         = st').
Proof.
  split.
  - intros d Hq. unfold is_free_on_date, mbind, io_bind, execute, lift, mret, io_ret.
    rewrite Hq. destruct answer as [r|e]; [|done].
    cbn [remote calls].
    destruct (outcome_bind _ _ _ (py_getitem r "calendars")) as [busy|e]; [|done].
    by destruct (py_len busy).
  - intros t wm Hq.
    unfold get_event_id_by_start_time, mbind, io_bind, execute, lift.
    rewrite Hq. destruct answer as [r|e]; [|done].
    cbn [remote calls].
    by destruct (outcome_bind _ _ _ (py_get r "items" (PList []))).
Qed.

Lemma query_operations_execute_one_request_witness :
  calls (get_event_id_by_start_time env_kolkata_host unreachable target 60
           out_of_reach).2
  = [] ++ [list_request env_kolkata_host target 60]
  ∧ remote (get_event_id_by_start_time env_kolkata_host unreachable target 60
              out_of_reach).2 = ().
Proof.
  destruct (query_operations_execute_one_request env_kolkata_host unreachable
              out_of_reach (Raise (TransportError "connection refused")) ())
    as [_ Hlist].
  by apply (Hlist target 60).
Defined.

(** X3. On a free/busy response that has the entry of the calendar,
    [is_free_on_date] answers [True] exactly when that entry's busy list is
    empty; the busy lists of other calendars in the response play no part. *)
Theorem is_free_on_date_free_iff_nothing_busy
    (env : Env) (srv : Service) (date_to_be_checked : date) (w : world srv)
    (response calendars calendar : gmap string pyval) (busy : list pyval) st' :
  respond srv (freebusy_request env date_to_be_checked) (remote w)
    = (Ok (PDict response), st') →
  response !! "calendars" = Some (PDict calendars) →
  calendars !! CALENDAR_ID env = Some (PDict calendar) →
  calendar !! "busy" = Some (PList busy) →
  (∃ free : bool,
      (is_free_on_date env srv date_to_be_checked w).1 = Ok free
      ∧ (free = true ↔ busy = [])).
Proof.
  intros Hq H1 H2 H3.
  rewrite (is_free_on_date_run _ _ _ _ _ _ _ _ _ Hq H1 H2 H3). cbn [fst].
  eexists. split; [reflexivity|]. apply bool_decide_eq_true.
Qed.

Lemma is_free_on_date_free_iff_nothing_busy_witness :
  (is_free_on_date env_kolkata_host (answering (PDict (free_response "primary")))
     july_1 (before (answering (PDict (free_response "primary"))) ())).1 = Ok true.
Proof.
  destruct (is_free_on_date_free_iff_nothing_busy env_kolkata_host
              (answering (PDict (free_response "primary"))) july_1
              (before (answering (PDict (free_response "primary"))) ())
              (free_response "primary") (calendars_of "primary") nothing_busy [] ())
    as (free & Hrun & Hfree).
  - reflexivity.
  - by vm_compute.
  - by vm_compute.
  - by vm_compute.
  - rewrite Hrun. f_equal. by apply Hfree.
Defined.

(** X4. When the free/busy response has no entry for the configured calendar,
    [is_free_on_date] raises [KeyError] with the calendar id, after the query
    has been executed; likewise a response without [calendars] raises
    [KeyError] on that key. *)
Theorem is_free_on_date_missing_entry
    (env : Env) (srv : Service) (date_to_be_checked : date) (w : world srv)
    (response : gmap string pyval) st' :
  respond srv (freebusy_request env date_to_be_checked) (remote w)
    = (Ok (PDict response), st') →
  (response !! "calendars" = None →
   (is_free_on_date env srv date_to_be_checked w).1 = Raise (KeyError "calendars"))
  ∧ (∀ calendars : gmap string pyval,
       response !! "calendars" = Some (PDict calendars) →
       calendars !! CALENDAR_ID env = None →
       (is_free_on_date env srv date_to_be_checked w).1
       = Raise (KeyError (CALENDAR_ID env))).
Proof.
  intros Hq. split.
  - intros H1. unfold is_free_on_date, mbind at 1, io_bind.
    rewrite (execute_run _ _ _ _ _ Hq).
    unfold mbind at 1, io_bind, lift. cbn [py_getitem mbind outcome_bind].
    by rewrite H1.
  - intros calendars H1 H2. unfold is_free_on_date, mbind at 1, io_bind.
    rewrite (execute_run _ _ _ _ _ Hq).
    unfold mbind at 1, io_bind, lift. cbn [py_getitem mbind outcome_bind].
    rewrite H1. cbn [py_getitem mbind outcome_bind]. by rewrite H2.
Qed.

Lemma is_free_on_date_missing_entry_witness :
  (is_free_on_date env_kolkata_host (answering (PDict (free_response "work")))
     july_1 (before (answering (PDict (free_response "work"))) ())).1
  = Raise (KeyError "primary").
Proof.
  destruct (is_free_on_date_missing_entry env_kolkata_host
              (answering (PDict (free_response "work"))) july_1
              (before (answering (PDict (free_response "work"))) ())
              (free_response "work") ()) as [_ Hentry].
  - reflexivity.
  - apply (Hentry (calendars_of "work")); by vm_compute.
Defined.

(** X6. [create_event] returns the [id] the remote's answer carries, as it
    is.  When the answer has no [id] the operation raises [KeyError], and the
    insert has been executed all the same: the event exists on the calendar
    although the caller got no id for it. *)
Theorem create_event_returns_answered_id
    (env : Env) (srv : Service) (title : string) (start_time end_time : datetime)
    (description : option string) (w : world srv)
    (created : gmap string pyval) st' :
  respond srv (insert_request env title start_time end_time description) (remote w)
    = (Ok (PDict created), st') →
  (create_event env srv title start_time end_time description w).1
    = match created !! "id" with
      | Some id => Ok id
      | None => Raise (KeyError "id")
      end
  ∧ calls (create_event env srv title start_time end_time description w).2
    = calls w ++ [insert_request env title start_time end_time description]
  ∧ remote (create_event env srv title start_time end_time description w).2 = st'.
Proof.
  intros H. by rewrite (create_event_run _ _ _ _ _ _ _ _ _ H).
Qed.

Lemma create_event_returns_answered_id_witness :
  (create_event env_kolkata_host (answering stub) "Standup" target
     (at_ 2025 7 1 10 30 None) None (before (answering stub) ())).1
    = Ok (PStr "stub")
  ∧ (create_event env_kolkata_host (answering (PDict ∅)) "Standup" target
       (at_ 2025 7 1 10 30 None) None (before (answering (PDict ∅)) ())).1
    = Raise (KeyError "id").
Proof.
  split.
  - destruct (create_event_returns_answered_id env_kolkata_host (answering stub)
                "Standup" target (at_ 2025 7 1 10 30 None) None
                (before (answering stub) ()) (<["id" := PStr "stub"]> ∅) ())
      as [Hid _]; [reflexivity|].
    rewrite Hid. by vm_compute.
  - destruct (create_event_returns_answered_id env_kolkata_host
                (answering (PDict ∅)) "Standup" target (at_ 2025 7 1 10 30 None)
                None (before (answering (PDict ∅)) ()) ∅ ())
      as [Hid _]; [reflexivity|].
    rewrite Hid. by vm_compute.
Defined.

Lemma create_event_calls (env : Env) (srv : Service) (title : string)
    (start_time end_time : datetime) (description : option string) (w : world srv) :
  calls (create_event env srv title start_time end_time description w).2
  = calls w ++ [insert_request env title start_time end_time description].
Proof.
  unfold create_event, mbind, io_bind, execute, lift.
  by destruct (respond srv _ (remote w)) as [[r|e] st'].
Qed.

(** X7. [create_event] keeps no trace of what it has created and looks
    nothing up before inserting: called a second time with the same
    arguments, it sends the same insert request again, whatever the first
    call returned. *)
Theorem create_event_twice_inserts_twice
    (env : Env) (srv : Service) (title : string) (start_time end_time : datetime)
    (description : option string) (w : world srv) :
  calls (create_event env srv title start_time end_time description
           (create_event env srv title start_time end_time description w).2).2
  = calls w ++ [insert_request env title start_time end_time description;
                insert_request env title start_time end_time description].
Proof. rewrite !create_event_calls, <- app_assoc. done. Qed.

Lemma update_event_time_overwrite_failed (env : Env) (srv : Service)
    (event_id : string) (new_start_time new_end_time : datetime) (w : world srv)
    (event : pyval) st1 e :
  respond srv (EventsGet (CALENDAR_ID env) event_id) (remote w) = (Ok event, st1) →
  with_new_times env event (ensure_aware env new_start_time)
    (ensure_aware env new_end_time) = Raise e →
  update_event_time env srv event_id new_start_time new_end_time w
  = (Raise e, mk_world st1 (calls w ++ [EventsGet (CALENDAR_ID env) event_id])).
Proof.
  intros Hget Hbody. unfold update_event_time, try_except_return.
  rewrite (execute_run _ _ _ _ _ Hget).
  unfold mbind at 1, io_bind, lift. by rewrite Hbody.
Qed.

(** X8. When the fetched event has no [start], or a [start] but no [end],
    [update_event_time] raises [KeyError] on that key instead of returning a
    boolean: the overwrite sits between the two [try] blocks.  No update
    request is sent, so a half-changed event never reaches the calendar. *)
Theorem update_event_time_missing_time_object
    (env : Env) (srv : Service) (event_id : string)
    (new_start_time new_end_time : datetime) (w : world srv)
    (d : gmap string pyval) st1 :
  respond srv (EventsGet (CALENDAR_ID env) event_id) (remote w) = (Ok (PDict d), st1) →
  (d !! "start" = None →
   update_event_time env srv event_id new_start_time new_end_time w
   = (Raise (KeyError "start"),
      mk_world st1 (calls w ++ [EventsGet (CALENDAR_ID env) event_id])))
  ∧ (∀ start : gmap string pyval,
       d !! "start" = Some (PDict start) →
       d !! "end" = None →
       update_event_time env srv event_id new_start_time new_end_time w
       = (Raise (KeyError "end"),
          mk_world st1 (calls w ++ [EventsGet (CALENDAR_ID env) event_id]))).
Proof.
  intros Hget. split.
  - intros Hs. apply (update_event_time_overwrite_failed _ _ _ _ _ _ _ _ _ Hget).
    unfold with_new_times, py_setitem2. cbn [py_getitem mbind outcome_bind].
    by rewrite Hs.
  - intros start Hs He.
    apply (update_event_time_overwrite_failed _ _ _ _ _ _ _ _ _ Hget).
    unfold with_new_times, py_setitem2. cbn [py_getitem mbind outcome_bind].
    rewrite Hs. cbn [py_getitem py_setitem mbind outcome_bind].
    rewrite lookup_insert_ne by done. by rewrite He.
Qed.

Lemma update_event_time_missing_time_object_witness :
  (update_event_time env_kolkata_host (answering stub) "stub" target
     (at_ 2025 7 1 10 30 None) (before (answering stub) ())).1
    = Raise (KeyError "start")
  ∧ (update_event_time env_kolkata_host (answering draft) "draft" target
       (at_ 2025 7 1 10 30 None) (before (answering draft) ())).1
    = Raise (KeyError "end").
Proof.
  split.
  - destruct (update_event_time_missing_time_object env_kolkata_host
                (answering stub) "stub" target (at_ 2025 7 1 10 30 None)
                (before (answering stub) ()) (<["id" := PStr "stub"]> ∅) ())
      as [Hstart _]; [reflexivity|].
    rewrite Hstart; [reflexivity | by vm_compute].
  - destruct (update_event_time_missing_time_object env_kolkata_host
                (answering draft) "draft" target (at_ 2025 7 1 10 30 None)
                (before (answering draft) ())
                (<["start" := PDict (<["timeZone" := PStr "Asia/Kolkata"]> ∅)]>
                   (<["summary" := PStr "Draft"]> (<["id" := PStr "draft"]> ∅))) ())
      as [_ Hend]; [by vm_compute|].
    rewrite (Hend (<["timeZone" := PStr "Asia/Kolkata"]> ∅));
      [reflexivity | by vm_compute | by vm_compute].
Defined.

(** X9. What [update_event_time] sends and how it ends, in every case: the
    fetch is always executed; an update is executed only after a fetch that
    returned, for the same id, and at most once; and the operation raises
    only when the overwrite of the fetched event raises, never because a
    remote call did. *)
Theorem update_event_time_footprint
    (env : Env) (srv : Service) (event_id : string)
    (new_start_time new_end_time : datetime) (w : world srv) :
  let get := EventsGet (CALENDAR_ID env) event_id in
  let run := update_event_time env srv event_id new_start_time new_end_time w in
  (calls run.2 = calls w ++ [get]
   ∨ ∃ body, calls run.2
             = calls w ++ [get; EventsUpdate (CALENDAR_ID env) event_id body "all"]
             ∧ ∃ event, (respond srv get (remote w)).1 = Ok event
                        ∧ with_new_times env event (ensure_aware env new_start_time)
                            (ensure_aware env new_end_time) = Ok body)
  ∧ (∀ e, run.1 = Raise e →
          ∃ event, (respond srv get (remote w)).1 = Ok event
                   ∧ with_new_times env event (ensure_aware env new_start_time)
                       (ensure_aware env new_end_time) = Raise e
                   ∧ calls run.2 = calls w ++ [get]).
Proof.
  cbn zeta.
  destruct (respond srv (EventsGet (CALENDAR_ID env) event_id) (remote w))
    as [[event|e0] st1] eqn:Hget.
  - destruct (with_new_times env event (ensure_aware env new_start_time)
                (ensure_aware env new_end_time)) as [body|e1] eqn:Hbody.
    + rewrite (update_event_time_run _ _ _ _ _ _ _ _ _ _ _ Hget Hbody
                 (surjective_pairing _)).
      cbn [fst snd calls]. split; [|done].
      right. exists body. split; [done|]. by exists event.
    + rewrite (update_event_time_overwrite_failed _ _ _ _ _ _ _ _ _ Hget Hbody).
      cbn [fst snd calls]. split; [by left|].
      intros e [= <-]. by exists event.
  - rewrite (update_event_time_fetch_failed _ _ _ _ _ _ _ _ Hget).
    cbn [fst snd calls]. split; [by left | done].
Qed.

Lemma with_new_times_inv (env : Env) (event body : pyval)
    (new_start_time new_end_time : datetime) :
  with_new_times env event new_start_time new_end_time = Ok body →
  ∃ d start end_ : gmap string pyval,
    event = PDict d ∧ d !! "start" = Some (PDict start) ∧ d !! "end" = Some (PDict end_).
Proof.
  unfold with_new_times, py_setitem2. destruct event as [| | | | |d]; try done.
  cbn [py_getitem mbind outcome_bind].
  destruct (d !! "start") as [[| | | | |start]|] eqn:Hs; try done.
  cbn [py_getitem py_setitem mbind outcome_bind].
  rewrite lookup_insert_ne by done.
  destruct (d !! "end") as [[| | | | |end_]|] eqn:He; try done.
  intros _. by exists d, start, end_.
Qed.

(** X10. The overwrite is last-write-wins and leaves no trace of earlier
    times: giving new times to an event that has already been given others
    yields the body that giving them to the original event yields. *)
Theorem with_new_times_last_write_wins
    (env : Env) (event retimed : pyval) (start1 end1 start2 end2 : datetime) :
  with_new_times env event start1 end1 = Ok retimed →
  with_new_times env retimed start2 end2 = with_new_times env event start2 end2.
Proof.
  intros H. destruct (with_new_times_inv _ _ _ _ _ H) as (d & s & e & -> & Hs & He).
  rewrite (with_new_times_run _ _ _ _ _ _ Hs He) in H. injection H as <-.
  rewrite (with_new_times_run _ _ _ _ _ _ Hs He).
  rewrite (with_new_times_run env _
             (<["dateTime" := PStr (isoformat env start1)]> s)
             (<["dateTime" := PStr (isoformat env end1)]> e)).
  - rewrite !insert_insert_eq.
    rewrite (insert_insert_ne _ "start" "end") by done.
    rewrite !insert_insert_eq.
    rewrite (insert_insert_ne _ "end" "start") by done.
    done.
  - by rewrite lookup_insert_ne, lookup_insert_eq.
  - by rewrite lookup_insert_eq.
Qed.

Lemma with_new_times_last_write_wins_witness :
  (retimed ← with_new_times env_kolkata_host early_call
                (at_ 2025 7 1 11 0 (Some 330)) (at_ 2025 7 1 11 30 (Some 330));
   with_new_times env_kolkata_host retimed
     (at_ 2025 7 1 12 0 (Some 330)) (at_ 2025 7 1 12 30 (Some 330)))
  = with_new_times env_kolkata_host early_call
      (at_ 2025 7 1 12 0 (Some 330)) (at_ 2025 7 1 12 30 (Some 330)).
Proof.
  destruct (with_new_times env_kolkata_host early_call
              (at_ 2025 7 1 11 0 (Some 330)) (at_ 2025 7 1 11 30 (Some 330)))
    as [retimed|e] eqn:H.
  - apply (with_new_times_last_write_wins env_kolkata_host early_call retimed
             (at_ 2025 7 1 11 0 (Some 330)) (at_ 2025 7 1 11 30 (Some 330))
             (at_ 2025 7 1 12 0 (Some 330)) (at_ 2025 7 1 12 30 (Some 330)) H).
  - vm_compute in H. discriminate H.
Defined.

Lemma raw_start_of_inv (event raw : pyval) :
  raw_start_of event = Ok raw →
  ∃ start, start_object event start
           ∧ ((truthy raw = true ∧ start !! "dateTime" = Some raw)
              ∨ (no_value (start !! "dateTime")
                 ∧ raw = default PNone (start !! "date"))).
Proof.
  unfold raw_start_of, no_value. destruct event as [| | | | |d]; try done.
  cbn [py_get mbind outcome_bind].
  assert (Hstep : ∀ start : gmap string pyval,
            (if truthy (default PNone (start !! "dateTime"))
             then Ok (default PNone (start !! "dateTime"))
             else Ok (default PNone (start !! "date"))) = Ok raw →
            (truthy raw = true ∧ start !! "dateTime" = Some raw)
            ∨ (truthy (default PNone (start !! "dateTime")) = false
               ∧ raw = default PNone (start !! "date"))).
  { intros start. destruct (truthy (default PNone (start !! "dateTime"))) eqn:Ht.
    - intros [= <-]. left. split; [done|].
      destruct (start !! "dateTime"); [done | discriminate Ht].
    - intros [= <-]. by right. }
  destruct (d !! "start") as [v|] eqn:Hs; cbn [default from_option id].
  - destruct v as [| | | | |start]; try done.
    cbn [py_get mbind outcome_bind]. intros H.
    exists start. split; [exists d; eauto | by apply Hstep].
  - cbn [py_get mbind outcome_bind]. intros H.
    exists ∅. split; [exists d; eauto | by apply Hstep].
Qed.

Lemma parse_raw_start_inv (env : Env) (raw : pyval) (dt : datetime) :
  parse_raw_start env raw = Ok dt → ∃ s, raw = PStr s ∧ parses env s dt.
Proof.
  unfold parse_raw_start, datetime_fromisoformat, py_replace_Z, parses.
  destruct raw as [| | |s| |]; try done.
  destruct (fromisoformat env s) as [dt'|] eqn:H1.
  - intros [= <-]. exists s. eauto.
  - cbn [mbind outcome_bind].
    destruct (fromisoformat env (str_replace "Z" "+00:00" s)) as [dt'|] eqn:H2; [|done].
    intros [= <-]. exists s. eauto.
Qed.

Lemma truthy_str_inv (s : string) : truthy (PStr s) = true → s ≠ "".
Proof. intros H ->. discriminate H. Qed.

(** A turn of the loop that does not raise has found the event's start, or
    found that it has none. *)
Lemma scan_events_step_inv (env : Env) (start_time : datetime) (window_minutes : Z)
    (event : pyval) (rest : list pyval) (v : pyval) :
  scan_events env start_time window_minutes (event :: rest) = Ok v →
  ∃ start, extracted_start env event start.
Proof.
  cbn [scan_events].
  destruct (raw_start_of event) as [raw|e] eqn:Hraw; [|done].
  cbn [mbind outcome_bind].
  destruct (raw_start_of_inv _ _ Hraw) as (start & Hobj & Hcase).
  destruct (truthy raw) eqn:Ht; cbn [negb].
  - destruct (parse_raw_start env raw) as [dt|e] eqn:Hparse; [|done].
    destruct (parse_raw_start_inv _ _ _ Hparse) as (s & -> & Hp).
    intros _. exists (Some (ensure_aware env dt)).
    destruct Hcase as [[_ Hdt] | [Hno Hdate]].
    + by apply (start_date_time env event start s dt); [| |apply truthy_str_inv|].
    + apply (start_all_day env event start s dt); [done|done| |by apply truthy_str_inv|done].
      destruct (start !! "date"); [by simplify_eq/= | done].
  - intros _. exists None.
    destruct Hcase as [[Htrue _] | [Hno Hdate]]; [congruence|].
    apply (start_missing env event start); [done|done|].
    unfold no_value. by rewrite <- Hdate.
Qed.

Lemma scan_events_sound (env : Env) (target : datetime) (window_minutes : Z)
    (items : list pyval) (v : pyval) :
  scan_events env (ensure_aware env target) window_minutes items = Ok v →
  (∃ pre event post,
      items = pre ++ event :: post
      ∧ Forall (passed_over env target window_minutes) pre
      ∧ candidate env target window_minutes event
      ∧ event_id event v)
  ∨ (Forall (passed_over env target window_minutes) items ∧ v = PNone).
Proof.
  induction items as [| event rest IH].
  - intros [= <-]. right. by split.
  - intros H. destruct (scan_events_step_inv _ _ _ _ _ _ H) as (start & Hstart).
    rewrite (scan_events_step _ _ _ _ _ _ Hstart) in H.
    assert (Hrest :
      scan_events env (ensure_aware env target) window_minutes rest = Ok v →
      passed_over env target window_minutes event →
      (∃ pre event' post,
          event :: rest = pre ++ event' :: post
          ∧ Forall (passed_over env target window_minutes) pre
          ∧ candidate env target window_minutes event'
          ∧ event_id event' v)
      ∨ (Forall (passed_over env target window_minutes) (event :: rest) ∧ v = PNone)).
    { intros Hscan Hover.
      destruct (IH Hscan) as [(pre & ev' & post & -> & Hpre & Hc & Hid) | [Hall ->]].
      - left. exists (event :: pre), ev', post. split; [done|].
        split; [by apply Forall_cons|]. by split.
      - right. split; [by apply Forall_cons | done]. }
    destruct start as [dt|].
    + destruct (bool_decide_reflect
                  (Z.abs (instant env dt - instant env target)
                   ≤ window_minutes * 60 * usec_per_second)) as [Hin|Hout].
      * left. exists [], event, rest. split; [done|]. split; [constructor|].
        split; [by exists dt|].
        inversion Hstart as [s raw dt' (d & -> & _) _ _ _ Heq
                            | s raw dt' (d & -> & _) _ _ _ _ Heq |].
        -- cbn [py_getitem] in H. destruct (d !! "id") eqn:Hid; [|done].
           injection H as <-. by exists d.
        -- cbn [py_getitem] in H. destruct (d !! "id") eqn:Hid; [|done].
           injection H as <-. by exists d.
      * apply Hrest; [done|]. exists (Some dt). split; [done|].
        by intros dt' [= <-].
    + apply Hrest; [done|]. exists None. by split.
Qed.

(** X11. Whatever [get_event_id_by_start_time] returns comes from the scan's
    first match: for a window of less than [2^34] seconds, when the operation
    returns a value, either that value is the id of a listed event whose
    start is within the window, every event listed before it having been
    passed over, or every listed event has been passed over and the value is
    [None].  On those windows it never returns the id of an event outside
    the window, nor of an event listed after a match. *)
Theorem get_event_id_by_start_time_sound
    (env : Env) (srv : Service) (start_time : datetime) (window_minutes : Z)
    (w : world srv) (response : pyval) st' (items : list pyval) (v : pyval) :
  window_minutes * 60 < 2 ^ 34 →
  respond srv (list_request env start_time window_minutes) (remote w)
    = (Ok response, st') →
  listed response items →
  (get_event_id_by_start_time_float env srv start_time window_minutes w).1 = Ok v →
  (∃ pre event post,
      items = pre ++ event :: post
      ∧ Forall (passed_over env start_time window_minutes) pre
      ∧ candidate env start_time window_minutes event
      ∧ event_id event v)
  ∨ (Forall (passed_over env start_time window_minutes) items ∧ v = PNone).
Proof.
  intros Hw Hr Hl. rewrite (get_event_id_by_start_time_float_exact _ _ _ _ _ Hw).
  rewrite (get_event_id_by_start_time_run _ _ _ _ _ _ _ _ Hr Hl).
  cbn [fst]. apply scan_events_sound.
Qed.

Lemma get_event_id_by_start_time_sound_witness :
  (∃ pre event post,
      [design_review; standup] = pre ++ event :: post
      ∧ Forall (passed_over env_kolkata_host target 60) pre
      ∧ candidate env_kolkata_host target 60 event
      ∧ event_id event (PStr "first"))
  ∨ (Forall (passed_over env_kolkata_host target 60) [design_review; standup]
     ∧ PStr "first" = PNone).
Proof.
  apply (get_event_id_by_start_time_sound env_kolkata_host MemCalendar.service
           target 60 two_candidates
           (py_dict [("kind", PStr "calendar#events");
                     ("items", PList [design_review; standup])])
           (MemCalendar.mk_state 1 [design_review; standup])).
  - by vm_compute.
  - by vm_compute.
  - eexists. split; [reflexivity | by vm_compute].
  - by vm_compute.
Defined.



(** X13. With a negative window nothing can match: on any listing whose
    events yield a start or lack one, [get_event_id_by_start_time] returns
    [None], even for an event that starts at the target itself. *)
Theorem get_event_id_by_start_time_negative_window
    (env : Env) (srv : Service) (start_time : datetime) (window_minutes : Z)
    (w : world srv) (response : pyval) st' (items : list pyval) :
  window_minutes < 0 →
  respond srv (list_request env start_time window_minutes) (remote w)
    = (Ok response, st') →
  listed response items →
  Forall (λ event, ∃ start, extracted_start env event start) items →
  (get_event_id_by_start_time env srv start_time window_minutes w).1 = Ok PNone.
Proof.
  intros Hneg Hr Hl Hall.
  rewrite (get_event_id_by_start_time_run _ _ _ _ _ _ _ _ Hr Hl). cbn [fst].
  apply scan_events_none. eapply Forall_impl; [exact Hall|].
  intros event (start & Hstart). exists start. split; [done|].
  intros dt _. unfold within, usec_per_second. lia.
Qed.

Lemma get_event_id_by_start_time_negative_window_witness :
  (get_event_id_by_start_time env_kolkata_host
     (answering (py_dict [("items", PList [booked_standup])])) target (-1)
     (before (answering (py_dict [("items", PList [booked_standup])])) ())).1
  = Ok PNone.
Proof.
  apply (get_event_id_by_start_time_negative_window env_kolkata_host
           (answering (py_dict [("items", PList [booked_standup])])) target (-1)
           (before (answering (py_dict [("items", PList [booked_standup])])) ())
           (py_dict [("items", PList [booked_standup])]) () [booked_standup]).
  - lia.
  - reflexivity.
  - eexists. split; [reflexivity | by vm_compute].
  - constructor; [|constructor].
    exists (Some (ensure_aware env_kolkata_host (at_ 2025 7 1 10 0 (Some 330)))).
    start_from_date_time "2025-07-01T10:00:00+05:30" (at_ 2025 7 1 10 0 (Some 330)).
Defined.

(** X14. A naive argument is read in the default zone: on a datetime without
    tzinfo, [create_event], [update_event_time] and
    [get_event_id_by_start_time] do what they do on [tz.localize] of it, the
    same requests and the same end, each argument on its own. *)
Theorem naive_and_localized_arguments_agree
    (env : Env) (srv : Service) (w : world srv) :
  (∀ title start_time end_time description,
      (utcoffset start_time = None →
       create_event env srv title start_time end_time description w
       = create_event env srv title (localize (tz env) start_time) end_time
           description w)
      ∧ (utcoffset end_time = None →
         create_event env srv title start_time end_time description w
         = create_event env srv title start_time (localize (tz env) end_time)
             description w))
  ∧ (∀ event_id new_start_time new_end_time,
       (utcoffset new_start_time = None →
        update_event_time env srv event_id new_start_time new_end_time w
        = update_event_time env srv event_id (localize (tz env) new_start_time)
            new_end_time w)
       ∧ (utcoffset new_end_time = None →
          update_event_time env srv event_id new_start_time new_end_time w
          = update_event_time env srv event_id new_start_time
              (localize (tz env) new_end_time) w))
  ∧ (∀ start_time window_minutes,
       utcoffset start_time = None →
       get_event_id_by_start_time env srv start_time window_minutes w
       = get_event_id_by_start_time env srv (localize (tz env) start_time)
           window_minutes w).
Proof.
  assert (Hloc : ∀ dt, utcoffset dt = None →
                       ensure_aware env (localize (tz env) dt) = ensure_aware env dt).
  { intros dt H. by rewrite (ensure_aware_naive _ _ H). }
  split; [|split].
  - intros. split; intros H; unfold create_event, insert_request;
      by rewrite (Hloc _ H).
  - intros. split; intros H; unfold update_event_time; by rewrite (Hloc _ H).
  - intros t wm H. unfold get_event_id_by_start_time, list_request.
    by rewrite (Hloc _ H).
Qed.

Lemma naive_and_localized_arguments_agree_witness :
  get_event_id_by_start_time env_kolkata_host MemCalendar.service target 60
    two_candidates
  = get_event_id_by_start_time env_kolkata_host MemCalendar.service
      (localize (tz env_kolkata_host) target) 60 two_candidates
  ∧ localize (tz env_kolkata_host) target = at_ 2025 7 1 10 0 (Some 330).
Proof.
  split; [|by vm_compute].
  destruct (naive_and_localized_arguments_agree env_kolkata_host
              MemCalendar.service two_candidates) as (_ & _ & Hresolve).
  by apply (Hresolve target 60).
Defined.

(** ** Configuration *)

Lemma assert_set_inr (value : option string) (message v : string) :
  Config.assert_set value message = inr v ↔ value = Some v ∧ v ≠ "".
Proof.
  unfold Config.assert_set. destruct value as [v'|]; [|by split; [|intros []]].
  destruct (String.eqb_spec v' "") as [->|Hne].
  - split; [done|]. by intros [[= <-] ?].
  - split; [by intros [= <-] | by intros [[= <-] _]].
Qed.

Lemma assert_set_inl (value : option string) (message failure : string) :
  Config.assert_set value message = inl failure ↔
  failure = message ∧ ¬ ∃ v, value = Some v ∧ v ≠ "".
Proof.
  unfold Config.assert_set. destruct value as [v'|].
  - destruct (String.eqb_spec v' "") as [->|Hne].
    + split; [intros [= <-]; split; [done|]; by intros (v & [= <-] & ?)|].
      by intros [-> _].
    + split; [done|]. intros [_ H]. destruct H. by exists v'.
  - split; [intros [= <-]; split; [done|]; by intros (v & ? & _)|].
    by intros [-> _].
Qed.

(** X16. [config.py] imports exactly when [OPENAI_API_KEY],
    [GOOGLE_CREDS_JSON] and [CALENDAR_ID] are all set to a non-empty value.
    The settings then hold the environment's values for the three;
    [TIMEZONE] and [OPENAI_MODEL] are the environment's when the variable is
    set, an empty value included, and [Asia/Kolkata] and [gpt-4o-mini]
    otherwise. *)
Theorem config_loads_iff_required_are_set (environ : gmap string string) :
  ((∃ s, Config.load environ = inr s) ↔ Forall (Config.is_set environ) Config.required)
  ∧ (∀ s, Config.load environ = inr s →
          environ !! "OPENAI_API_KEY" = Some (Config.OPENAI_API_KEY s)
          ∧ environ !! "GOOGLE_CREDS_JSON" = Some (Config.GOOGLE_CREDS_JSON s)
          ∧ environ !! "CALENDAR_ID" = Some (Config.CALENDAR_ID s)
          ∧ Config.OPENAI_API_KEY s ≠ "" ∧ Config.GOOGLE_CREDS_JSON s ≠ ""
          ∧ Config.CALENDAR_ID s ≠ ""
          ∧ Config.TIMEZONE s = default "Asia/Kolkata" (environ !! "TIMEZONE")
          ∧ Config.OPENAI_MODEL s = default "gpt-4o-mini" (environ !! "OPENAI_MODEL")
          ∧ Config.SCOPES s = ["https://www.googleapis.com/auth/calendar"]).
Proof.
  unfold Config.load, Config.required, Config.is_set.
  destruct (Config.assert_set (environ !! "OPENAI_API_KEY") _) as [f1|key] eqn:H1.
  { apply assert_set_inl in H1 as [_ H1]. split; [|done]. split; [by intros [s ?]|].
    intros H. by apply Forall_cons in H as [H _]. }
  destruct (Config.assert_set (environ !! "GOOGLE_CREDS_JSON") _) as [f2|creds] eqn:H2.
  { apply assert_set_inl in H2 as [_ H2]. split; [|done]. split; [by intros [s ?]|].
    intros H. apply Forall_cons in H as [_ H]. by apply Forall_cons in H as [H _]. }
  destruct (Config.assert_set (environ !! "CALENDAR_ID") _) as [f3|calendar] eqn:H3.
  { apply assert_set_inl in H3 as [_ H3]. split; [|done]. split; [by intros [s ?]|].
    intros H. apply Forall_cons in H as [_ H]. apply Forall_cons in H as [_ H].
    by apply Forall_cons in H as [H _]. }
  apply assert_set_inr in H1 as [H1 ?], H2 as [H2 ?], H3 as [H3 ?]. split.
  - split; [|eauto]. intros _.
    repeat (apply Forall_cons_2; [eauto|]). apply Forall_nil_2.
  - intros s [= <-]. by cbn.
Qed.

(** X17. When the import fails, the assertion that fails is that of the first
    of the three variables, in the order [OPENAI_API_KEY],
    [GOOGLE_CREDS_JSON], [CALENDAR_ID], that is unset or empty; the ones after
    it are not reported. *)
Theorem config_reports_first_unset_variable (environ : gmap string string) :
  (¬ Config.is_set environ "OPENAI_API_KEY" →
   Config.load environ = inl "OPENAI_API_KEY must be set in .env")
  ∧ (Config.is_set environ "OPENAI_API_KEY" →
     ¬ Config.is_set environ "GOOGLE_CREDS_JSON" →
     Config.load environ = inl "GOOGLE_CREDS_JSON must be set in .env")
  ∧ (Config.is_set environ "OPENAI_API_KEY" →
     Config.is_set environ "GOOGLE_CREDS_JSON" →
     ¬ Config.is_set environ "CALENDAR_ID" →
     Config.load environ = inl "CALENDAR_ID must be set in .env").
Proof.
  assert (Hset : ∀ name message, Config.is_set environ name →
            ∃ v, Config.assert_set (environ !! name) message = inr v).
  { intros name message (v & Hv & Hne). exists v. by apply assert_set_inr. }
  assert (Hunset : ∀ name message, ¬ Config.is_set environ name →
            Config.assert_set (environ !! name) message = inl message).
  { intros name message Hno. by apply assert_set_inl. }
  unfold Config.load. split; [|split].
  - intros H. by rewrite (Hunset _ _ H).
  - intros H1 H2. destruct (Hset _ "OPENAI_API_KEY must be set in .env" H1) as [? ->].
    by rewrite (Hunset _ _ H2).
  - intros H1 H2 H3.
    destruct (Hset _ "OPENAI_API_KEY must be set in .env" H1) as [? ->].
    destruct (Hset _ "GOOGLE_CREDS_JSON must be set in .env" H2) as [? ->].
    by rewrite (Hunset _ _ H3).
Qed.

Lemma config_reports_first_unset_variable_witness :
  Config.load environ_without_calendar = inl "CALENDAR_ID must be set in .env"
  ∧ Config.load (∅ : gmap string string) = inl "OPENAI_API_KEY must be set in .env".
Proof.
  split.
  - destruct (config_reports_first_unset_variable environ_without_calendar)
      as (_ & _ & H).
    apply H.
    + exists "sk-test". by split; [vm_compute|].
    + exists "creds.json". by split; [vm_compute|].
    + intros (v & Hv & _). vm_compute in Hv. discriminate Hv.
  - destruct (config_reports_first_unset_variable ∅) as (H & _).
    apply H. intros (v & Hv & _). vm_compute in Hv. discriminate Hv.
Defined.

Lemma config_loads_iff_required_are_set_witness :
  ∃ s, Config.load full_environ = inr s
       ∧ Config.CALENDAR_ID s = "primary"
       ∧ Config.TIMEZONE s = ""
       ∧ Config.OPENAI_MODEL s = "gpt-4o-mini".
Proof.
  destruct (config_loads_iff_required_are_set full_environ) as [[_ Hload] Hvalues].
  destruct Hload as [s Hs].
  - repeat (apply Forall_cons_2;
            [eexists; split; [by vm_compute | discriminate]|]).
    apply Forall_nil_2.
  - exists s. split; [exact Hs|].
    destruct (Hvalues s Hs) as (_ & _ & Hcal & _ & _ & _ & Htz & Hmodel & _).
    split; [|split].
    + vm_compute in Hcal. by injection Hcal.
    + rewrite Htz. by vm_compute.
    + rewrite Hmodel. by vm_compute.
Defined.

(** ** The Streamlit page *)

(** X18. In every run of the page the earlier conversation is kept and only
    added to: the history on entry is a prefix of the history on exit, at most
    two messages are added, what has been written to the chat is the history
    on exit, and at most one request is posted, none when there is no
    prompt. *)
Theorem run_keeps_the_history
    (rt : Frontend.Runtime) (url : string)
    (session : option (list Frontend.message)) (prompt : option string) :
  let result := Frontend.run rt url session prompt in
  (∃ added, Frontend.messages result = default [] session ++ added
            ∧ (length added ≤ 2)%nat)
  ∧ Frontend.written result = Frontend.messages result
  ∧ (length (Frontend.posted result) ≤ 1)%nat
  ∧ (prompt = None ∨ prompt = Some "" →
     Frontend.messages result = default [] session
     ∧ Frontend.posted result = []
     ∧ Frontend.ended result = Frontend.Finished).
Proof.
  cbn zeta. unfold Frontend.run.
  assert (Hquiet :
    let result := Frontend.mk_run_result Frontend.Finished (default [] session)
                    (default [] session) [] in
    (∃ added, Frontend.messages result = default [] session ++ added
              ∧ (length added ≤ 2)%nat)
    ∧ Frontend.written result = Frontend.messages result
    ∧ (length (Frontend.posted result) ≤ 1)%nat
    ∧ Frontend.messages result = default [] session
    ∧ Frontend.posted result = []
    ∧ Frontend.ended result = Frontend.Finished).
  { cbn. split; [exists []; split; [by rewrite app_nil_r | cbn; lia]|].
    repeat split. lia. }
  destruct prompt as [prompt|].
  - destruct (String.eqb_spec prompt "") as [->|Hne].
    + destruct Hquiet as (H1 & H2 & H3 & H4). by repeat split.
    + destruct (Frontend.post rt url _) as [resp|e]; cbn.
      * split; [eexists; split; [reflexivity | cbn; lia]|].
        split; [done|]. split; [lia|]. by intros [|[= ->]].
      * split; [eexists; split; [reflexivity | cbn; lia]|].
        split; [done|]. split; [lia|]. by intros [|[= ->]].
  - destruct Hquiet as (H1 & H2 & H3 & H4). by repeat split.
Qed.

(** X19. When the post returns a response, whatever its status and body, the
    run reaches its end and has added exactly two messages: the user's prompt,
    then one assistant message.  A failed status, a body that is not JSON or
    not an object do not stop the page. *)
Theorem run_adds_prompt_and_reply
    (rt : Frontend.Runtime) (url : string)
    (session : option (list Frontend.message)) (prompt : string)
    (resp : Frontend.response) :
  prompt ≠ "" →
  Frontend.post rt url (py_dict [("message", PStr prompt)]) = Ok resp →
  ∃ ans,
    Frontend.messages (Frontend.run rt url session (Some prompt))
    = default [] session
      ++ [Frontend.mk_message "user" (PStr prompt);
          Frontend.mk_message "assistant" ans]
    ∧ Frontend.ended (Frontend.run rt url session (Some prompt)) = Frontend.Finished
    ∧ Frontend.posted (Frontend.run rt url session (Some prompt))
      = [(url, py_dict [("message", PStr prompt)])].
Proof.
  intros Hne Hpost. unfold Frontend.run.
  destruct (String.eqb_spec prompt "") as [->|_]; [done|].
  rewrite Hpost. cbn. eauto.
Qed.

Lemma run_adds_prompt_and_reply_witness :
  ∃ ans,
    Frontend.messages
      (Frontend.run
         (Frontend.answered_by (Ok (Frontend.mk_response "Internal Server Error"
                                      (Some (HttpError 500)) (Raise ValueError))))
         "http://localhost:8000/chat" (Some earlier_turns) (Some "Book it"))
    = earlier_turns
      ++ [Frontend.mk_message "user" (PStr "Book it");
          Frontend.mk_message "assistant" ans].
Proof.
  destruct (run_adds_prompt_and_reply
              (Frontend.answered_by (Ok (Frontend.mk_response "Internal Server Error"
                                           (Some (HttpError 500)) (Raise ValueError))))
              "http://localhost:8000/chat" (Some earlier_turns) "Book it"
              (Frontend.mk_response "Internal Server Error"
                 (Some (HttpError 500)) (Raise ValueError)))
    as (ans & Hmessages & _).
  - discriminate.
  - reflexivity.
  - exists ans. exact Hmessages.
Defined.

(** X20. When the post itself raises (the backend cannot be reached, or the
    30 seconds run out), the handler reads [resp], which has not been bound:
    the run leaves with [NameError], the user's prompt has been added to the
    history and no assistant message follows it. *)
Theorem run_ends_in_name_error_when_post_raises
    (rt : Frontend.Runtime) (url : string)
    (session : option (list Frontend.message)) (prompt : string) (e : exn) :
  prompt ≠ "" →
  Frontend.post rt url (py_dict [("message", PStr prompt)]) = Raise e →
  Frontend.ended (Frontend.run rt url session (Some prompt))
    = Frontend.NameError "resp"
  ∧ Frontend.messages (Frontend.run rt url session (Some prompt))
    = default [] session ++ [Frontend.mk_message "user" (PStr prompt)].
Proof.
  intros Hne Hpost. unfold Frontend.run.
  destruct (String.eqb_spec prompt "") as [->|_]; [done|].
  by rewrite Hpost.
Qed.

Lemma run_ends_in_name_error_when_post_raises_witness :
  Frontend.ended
    (Frontend.run (Frontend.answered_by (Raise (TransportError "connection refused")))
       "http://localhost:8000/chat" None (Some "Book it"))
    = Frontend.NameError "resp"
  ∧ Frontend.messages
      (Frontend.run (Frontend.answered_by (Raise (TransportError "connection refused")))
         "http://localhost:8000/chat" None (Some "Book it"))
    = [Frontend.mk_message "user" (PStr "Book it")].
Proof.
  apply (run_ends_in_name_error_when_post_raises
           (Frontend.answered_by (Raise (TransportError "connection refused")))
           "http://localhost:8000/chat" None "Book it"
           (TransportError "connection refused")).
  - discriminate.
  - reflexivity.
Defined.

(** X21. End to end on the happy path: when the response passes the status
    check and its JSON is what [chat] returned for the agent's reply, the
    assistant message holds that reply, unchanged. *)
Theorem run_shows_the_agents_reply
    (rt : Frontend.Runtime) (url : string)
    (session : option (list Frontend.message)) (prompt : string)
    (resp : Frontend.response) (agent_run : string → outcome string)
    (reply : string) :
  prompt ≠ "" →
  Frontend.post rt url (py_dict [("message", PStr prompt)]) = Ok resp →
  Frontend.raise_for_status resp = None →
  agent_run prompt = Ok reply →
  Frontend.json resp = chat agent_run prompt →
  Frontend.messages (Frontend.run rt url session (Some prompt))
  = default [] session
    ++ [Frontend.mk_message "user" (PStr prompt);
        Frontend.mk_message "assistant" (PStr reply)].
Proof.
  intros Hne Hpost Hstatus Hagent Hjson. unfold Frontend.run.
  destruct (String.eqb_spec prompt "") as [->|_]; [done|].
  rewrite Hpost. unfold Frontend.answer_of. rewrite Hstatus, Hjson.
  unfold chat. rewrite Hagent. cbn [mbind outcome_bind py_dict foldl py_get].
  cbn [fst snd]. by rewrite lookup_insert_eq.
Qed.

Lemma run_shows_the_agents_reply_witness :
  Frontend.messages
    (Frontend.run
       (Frontend.answered_by
          (Ok (Frontend.delivering (py_dict [("response", PStr "Booked for 10:00.")]))))
       "http://localhost:8000/chat" (Some earlier_turns) (Some "Book it"))
  = earlier_turns
    ++ [Frontend.mk_message "user" (PStr "Book it");
        Frontend.mk_message "assistant" (PStr "Booked for 10:00.")].
Proof.
  apply (run_shows_the_agents_reply
           (Frontend.answered_by
              (Ok (Frontend.delivering
                     (py_dict [("response", PStr "Booked for 10:00.")]))))
           "http://localhost:8000/chat" (Some earlier_turns) "Book it"
           (Frontend.delivering (py_dict [("response", PStr "Booked for 10:00.")]))
           (λ _, Ok "Booked for 10:00.") "Booked for 10:00.").
  - discriminate.
  - reflexivity.
  - reflexivity.
  - reflexivity.
  - reflexivity.
Defined.

(** X22. What the assistant message holds when the response is not the
    expected one.  If the status check raises, or the body is not JSON, or
    the JSON is not an object, the message is the backend-error text with the
    exception and the raw body; if the JSON object has no [response] key, the
    message is the rendering of the whole object. *)
Theorem run_reply_on_unexpected_response
    (rt : Frontend.Runtime) (url : string)
    (session : option (list Frontend.message)) (prompt : string)
    (resp : Frontend.response) :
  prompt ≠ "" →
  Frontend.post rt url (py_dict [("message", PStr prompt)]) = Ok resp →
  let reply ans :=
    Frontend.messages (Frontend.run rt url session (Some prompt))
    = default [] session
      ++ [Frontend.mk_message "user" (PStr prompt);
          Frontend.mk_message "assistant" ans] in
  (∀ e, Frontend.raise_for_status resp = Some e →
        reply (Frontend.backend_error rt e (Frontend.text resp)))
  ∧ (∀ e, Frontend.raise_for_status resp = None →
          Frontend.json resp = Raise e →
          reply (Frontend.backend_error rt e (Frontend.text resp)))
  ∧ (∀ data, Frontend.raise_for_status resp = None →
             Frontend.json resp = Ok data →
             (∀ d, data ≠ PDict d) →
             reply (Frontend.backend_error rt AttributeError (Frontend.text resp)))
  ∧ (∀ d : gmap string pyval,
       Frontend.raise_for_status resp = None →
       Frontend.json resp = Ok (PDict d) →
       d !! "response" = None →
       reply (PStr (Frontend.str rt (PDict d)))).
Proof.
  intros Hne Hpost. cbn zeta. unfold Frontend.run.
  destruct (String.eqb_spec prompt "") as [->|_]; [done|].
  rewrite Hpost. unfold Frontend.answer_of. cbn [Frontend.messages].
  split; [|split; [|split]].
  - by intros e ->.
  - by intros e -> ->.
  - intros data -> -> Hdata. cbn [mbind outcome_bind].
    destruct data as [| | | | |d]; try done. by destruct (Hdata d).
  - intros d -> -> Hd. cbn [mbind outcome_bind py_get]. by rewrite Hd.
Qed.

Lemma run_reply_on_unexpected_response_witness :
  Frontend.messages
    (Frontend.run
       (Frontend.answered_by (Ok (Frontend.mk_response "Internal Server Error"
                                    (Some (HttpError 500)) (Raise ValueError))))
       "http://localhost:8000/chat" None (Some "Book it"))
  = [Frontend.mk_message "user" (PStr "Book it");
     Frontend.mk_message "assistant"
       (Frontend.backend_error
          (Frontend.answered_by (Ok (Frontend.mk_response "Internal Server Error"
                                       (Some (HttpError 500)) (Raise ValueError))))
          (HttpError 500) "Internal Server Error")].
Proof.
  destruct (run_reply_on_unexpected_response
              (Frontend.answered_by (Ok (Frontend.mk_response "Internal Server Error"
                                           (Some (HttpError 500)) (Raise ValueError))))
              "http://localhost:8000/chat" None "Book it"
              (Frontend.mk_response "Internal Server Error"
                 (Some (HttpError 500)) (Raise ValueError)))
    as (Hstatus & _).
  - discriminate.
  - reflexivity.
  - apply (Hstatus (HttpError 500)). reflexivity.
Defined.

(** X23. Where the page posts to: the [API_URL] secret when the secrets can
    be read and have it, whatever the environment says; otherwise the
    [API_URL] environment variable; otherwise the local address. *)
Theorem api_url_precedence
    (secrets : option (gmap string string)) (environ : gmap string string) :
  (∀ entries url,
      secrets = Some entries → entries !! "API_URL" = Some url →
      Frontend.api_url secrets environ = url)
  ∧ ((secrets = None ∨ ∃ entries, secrets = Some entries ∧ entries !! "API_URL" = None) →
     (∀ url, environ !! "API_URL" = Some url → Frontend.api_url secrets environ = url)
     ∧ (environ !! "API_URL" = None →
        Frontend.api_url secrets environ = "http://localhost:8000/chat")).
Proof.
  unfold Frontend.api_url. split.
  - intros entries url -> H. cbn. by rewrite H.
  - intros [-> | (entries & -> & H)]; cbn; [|rewrite H];
      by split; [intros url -> | intros ->].
Qed.
